(** * Device availability pipeline (NetBox inventory, LibreNMS metrics)

    Shallow embedding of the two scripts of the repository,

    - [Device_Availability/Switch_Availability.py] (module [Sync] below): the
      inventory is walked through a one-process [multiprocessing.Pool];
    - [Device_Availability/Switch_Availability_asyncio.py] (module [Async]):
      the same pipeline over [asyncio.gather];

    and of the properties the design document states about them.

    What the scripts do to the outside (HTTP requests, console output, the
    progress bar, the module-level list [results]) is kept in a [world]
    record that a small state-and-exception monad threads through the code.
    The Python run-time's [float], [sum] and true division are an interface
    ([PyFloat]); an IEEE binary64 instance on [SpecFloat] is given in
    module [B64] and used for the concrete runs. *)

From Stdlib Require Import ZArith String Ascii List Lia Permutation.
From Stdlib Require Import SpecFloat DecimalString.
From stdpp Require Import base option list gmap strings.

Open Scope string_scope.
Open Scope list_scope.
Open Scope Z_scope.

(** ** Values *)

(** Keys of the per-device dictionary: the string ["Name"] and the integer
    durations of the response entries. *)
Abbreviation key := (string + Z)%type.

(** The dictionary [availability] built by [get_availability]: every value
    is a string, the device name or a percentage as LibreNMS spells it. *)
Abbreviation dict := (gmap key string).

(** Python exceptions that the two scripts can raise. *)
Inductive exn : Type :=
| ConnectionError                (* requests.get / session.get failed *)
| JSONDecodeError                (* .json() on a body that is not JSON *)
| KeyError (k : key)             (* d[k] on a missing key *)
| TypeError                      (* None["address"] *)
| ValueError (s : string)        (* float(s) on a string that is no number *)
| ZeroDivisionError              (* x / 0 *)
| NameError (x : string)         (* unbound global *)
| InventoryError.                (* any failure of the NetBox query *)

Global Instance exn_eq_dec : EqDecision exn.
Proof. solve_decision. Defined.

(** Result of a call: a value or a raised exception. *)
Inductive res (A : Type) : Type :=
| Ok (a : A)
| Raise (e : exn).
Arguments Ok {A} a.
Arguments Raise {A} e.

Definition res_bind {A B} (r : res A) (k : A → res B) : res B :=
  match r with
  | Ok a => k a
  | Raise e => Raise e
  end.

Definition is_ok {A} (r : res A) : bool :=
  match r with Ok _ => true | Raise _ => false end.

(** The value of a call, forgetting which exception was raised. *)
Definition value_of {A} (r : res A) : option A :=
  match r with Ok a => Some a | Raise _ => None end.

Notation "x ←r y ; z" := (res_bind y (λ x, z))
  (at level 20, y at level 100, z at level 200, only parsing).

(** A pynetbox device, as far as the scripts read it: [device.name] and
    [device.primary_ip4], which is [None] for a device without address and
    otherwise carries ["address"] in CIDR form. *)
Record device : Type := Device {
  name : string;
  primary_ip4 : option string
}.

(** One element of the response's ["availability"] list, shaped as in the
    sample response that the source quotes: the percentage is a string,
    the duration an int. *)
Record entry : Type := Entry {
  availability_perc : string;
  duration : Z
}.

(** A decoded JSON body; [availability] is [None] when the object has no
    such key (LibreNMS error bodies), and a list of entries otherwise. *)
Record body : Type := Body {
  availability : option (list entry)
}.

(** The monitoring server: what a GET of a URL ends in, and after how many
    scheduler turns the answer is there (only [asyncio.gather] looks at
    the latter). *)
Record network : Type := Network {
  reply_of : string → res body;
  latency : string → nat
}.

(** ** The world *)

Record world : Type := World {
  requests : list string;          (* URLs asked for, oldest first *)
  console : list string;           (* console.print lines, oldest first *)
  task_total : option nat;         (* progress.add_task(.., total=n) *)
  ticks : nat;                     (* progress.advance(task_id) calls *)
  g_results : option (list (option dict))
                                   (* the module global [results];
                                      [None] while the name is unbound *)
}.

Definition initial_world : world :=
  {| requests := []; console := []; task_total := None; ticks := 0;
     g_results := None |}.

Definition M (A : Type) : Type := world → world * res A.

Global Instance M_ret : MRet M := λ A a w, (w, Ok a).
Global Instance M_bind : MBind M := λ A B k m w,
  match m w with
  | (w', Ok a) => k a w'
  | (w', Raise e) => (w', Raise e)
  end.

Definition raise {A} (e : exn) : M A := λ w, (w, Raise e).

Definition lift {A} (r : res A) : M A := λ w, (w, r).

Definition log_request (url : string) : M () := λ w,
  (World (requests w ++ [url]) (console w) (task_total w) (ticks w)
         (g_results w), Ok ()).

Definition console_print (line : string) : M () := λ w,
  (World (requests w) (console w ++ [line]) (task_total w) (ticks w)
         (g_results w), Ok ()).

Definition add_task (description : string) (total : nat) : M () := λ w,
  (World (requests w) (console w) (Some total) 0 (g_results w), Ok ()).

Definition advance : M () := λ w,
  (World (requests w) (console w) (task_total w) (S (ticks w))
         (g_results w), Ok ()).

(** [results = []] at module level. *)
Definition bind_results (l : list (option dict)) : M () := λ w,
  (World (requests w) (console w) (task_total w) (ticks w) (Some l), Ok ()).

(** Reading the global name [results]. *)
Definition load_results : M (list (option dict)) := λ w,
  match g_results w with
  | Some l => (w, Ok l)
  | None => (w, Raise (NameError "results"))
  end.

(** [results.append(result)]: the name is looked up when the statement
    runs. *)
Definition results_append (result : option dict) : M () := λ w,
  match g_results w with
  | Some l =>
      (World (requests w) (console w) (task_total w) (ticks w)
             (Some (l ++ [result])), Ok ())
  | None => (w, Raise (NameError "results"))
  end.

(** ** Code shared by the two scripts (textually duplicated in the source) *)

(** [address.split("/")[0]] *)
Fixpoint before_slash (s : string) : string :=
  match s with
  | EmptyString => EmptyString
  | String c s' =>
      if Ascii.eqb c "/" then EmptyString else String c (before_slash s')
  end.

(** [LIBRENMS_URL + device_ip + "/availability"] *)
Definition availability_url (LIBRENMS_URL address : string) : string :=
  LIBRENMS_URL +:+ before_slash address +:+ "/availability".

(** [{avail["duration"]: avail["availability_perc"] for avail in l}]:
    a later entry with the same duration replaces an earlier one. *)
Definition comprehension (list_of_avails : list entry) : dict :=
  foldl (λ (d : dict) avail,
           <[inr (duration avail) := availability_perc avail]> d)
        ∅ list_of_avails.

(** [availability = {"Name": device.name}; availability.update(c)]:
    the keys of [c] win. *)
Definition build_availability (dev : device) (list_of_avails : list entry)
  : dict :=
  comprehension list_of_avails ∪ {[ inl "Name" := name dev ]}.

(** The argument of [Progress().console.print]. *)
Definition warning (dev : device) : string :=
  "[red]" +:+ name dev +:+ " issue in LibreNMS".

(** ** Numbers *)

(** What [average_availability] asks of Python's floats. *)
Class PyFloat (F : Type) : Type := {
  (** [float(s)]; [None] stands for the [ValueError] *)
  float_of_str : string → option F;
  (** [sum(xs)] of a non-empty list of floats *)
  float_sum : list F → F;
  (** [x / n] for a float [x] and an int [n] other than 0 *)
  float_div_int : F → Z → F
}.

(** The four windows, in seconds. *)
Definition DAY : Z := 86400.
Definition WEEK : Z := 604800.
Definition MONTH : Z := 2592000.
Definition YEAR : Z := 31536000.

Definition standard_durations : list Z := [DAY; WEEK; MONTH; YEAR].

(** The dictionary [average_availability] returns has the four fixed keys
    ["day"], ["week"], ["month"] and ["year"]. *)
Record report (F : Type) : Type := Report {
  day : F;
  week : F;
  month : F;
  year : F
}.
Arguments Report {F} _ _ _ _.
Arguments day {F} _.
Arguments week {F} _.
Arguments month {F} _.
Arguments year {F} _.

Section Aggregation.
Context {F : Type} `{PyFloat F}.

(** [[float(result[k]) for result in results if result is not None]]:
    the records are visited in order, and the first missing key or
    unreadable number raises. *)
Fixpoint column (k : Z) (results : list (option dict)) : res (list F) :=
  match results with
  | [] => Ok []
  | None :: rest => column k rest
  | Some result :: rest =>
      match result !! (inr k : key) with
      | None => Raise (KeyError (inr k))
      | Some s =>
          match float_of_str s with
          | None => Raise (ValueError s)
          | Some x => xs ←r column k rest; Ok (x :: xs)
          end
      end
  end.

(** [sum(xs) / len(xs)]; for the empty list this is [0 / 0]. *)
Definition mean (xs : list F) : res F :=
  if Nat.eqb (length xs) 0 then Raise ZeroDivisionError
  else Ok (float_div_int (float_sum xs) (Z.of_nat (length xs))).

End Aggregation.

(** ** Switch_Availability.py *)

Module Sync.
Section Run.
Context {F : Type} `{PyFloat F}.
Variable LIBRENMS_URL : string.
Variable net : network.
(** What the NetBox query of [get_list_of_devices] ends in. *)
Variable inventory : res (list device).

Definition get_list_of_devices : M (list device) := lift inventory.

Definition get_availability (dev : device) : M (option dict) :=
  address ← match primary_ip4 dev with
            | Some a => mret a
            | None => raise TypeError
            end;
  let url := availability_url LIBRENMS_URL address in
  log_request url;;
  response ← lift (reply_of net url);
  list_of_avails ← match availability response with
                   | Some l => mret l
                   | None => raise (KeyError (inl "availability"))
                   end;
  if Nat.eqb (length list_of_avails) 0 then
    console_print (warning dev);; mret None
  else
    mret (Some (build_availability dev list_of_avails)).

(** [for result in pool.imap(task_item, device_list): ...] with the one
    worker of the pool: the results arrive in the order of the list, and a
    task that raised re-raises in the loop.  The worker runs ahead of the
    loop; [requests] and [console] hold what it did for the results the
    loop has taken, and leave out what it does meanwhile for the devices
    behind them, which is a matter of timing. *)
Fixpoint imap_loop (task_item : device → M (option dict))
    (device_list : list device) : M () :=
  match device_list with
  | [] => mret ()
  | dev :: rest =>
      result ← task_item dev;
      results_append result;;
      advance;;
      imap_loop task_item rest
  end.

Definition multi_proc (description : string)
    (task_item : device → M (option dict)) (device_list : list device)
  : M () :=
  add_task description (length device_list);;
  imap_loop task_item device_list.

Definition average_availability (results : list (option dict))
  : res (report F) :=
  day ←r column DAY results;
  week ←r column WEEK results;
  month ←r column MONTH results;
  year ←r column YEAR results;
  average_day ←r mean day;
  average_week ←r mean week;
  average_month ←r mean month;
  average_year ←r mean year;
  Ok (Report average_day average_week average_month average_year).

(** The [__main__] block up to [avail]; the statements after it only
    print the four numbers. *)
Definition main : M (report F) :=
  device_list ← get_list_of_devices;
  bind_results [];;
  multi_proc "[cyan]Requesting Device Availability..." get_availability
             device_list;;
  results ← load_results;
  lift (average_availability results).

End Run.
End Sync.

(** ** Switch_Availability_asyncio.py *)

Module Async.

(** A coroutine of this script: it either ends before its first [await],
    or awaits the answer to one GET and then runs to its end, printing
    lines and returning or raising. *)
Inductive coro (A : Type) : Type :=
| Done (r : res A)
| Await (url : string) (k : body → list string * res A).
Arguments Done {A} r.
Arguments Await {A} url k.

(** A task of [gather] after its first step: when it will finish, what it
    will print then, and how it will end. *)
Record pending (A : Type) : Type := Pending {
  due : nat;
  output : list string;
  outcome : res A
}.
Arguments Pending {A} _ _ _.
Arguments due {A} _.
Arguments output {A} _.
Arguments outcome {A} _.

(** Tasks that finish in the same turn finish in the order in which they
    were started. *)
Fixpoint insert_by_due {A} (p : pending A) (l : list (pending A))
  : list (pending A) :=
  match l with
  | [] => [p]
  | q :: l' =>
      if Nat.leb (due p) (due q) then p :: q :: l'
      else q :: insert_by_due p l'
  end.

Definition completion_order {A} (l : list (pending A)) : list (pending A) :=
  foldr insert_by_due [] l.

Fixpoint all_outcomes {A} (l : list (pending A)) : res (list A) :=
  match l with
  | [] => Ok []
  | p :: l' => a ←r outcome p; rest ←r all_outcomes l'; Ok (a :: rest)
  end.

Fixpoint print_lines (lines : list string) : M () :=
  match lines with
  | [] => mret ()
  | line :: rest => console_print line;; print_lines rest
  end.

Section Run.
Context {F : Type} `{PyFloat F}.
Variable LIBRENMS_URL : string.
Variable net : network.
Variable inventory : res (list device).

Definition get_list_of_devices : M (list device) := lift inventory.

(** The [session] argument carries no data of its own and is left out. *)
Definition get_availability (dev : device) : coro (option dict) :=
  match primary_ip4 dev with
  | None => Done (Raise TypeError)
  | Some address =>
      Await (availability_url LIBRENMS_URL address) (λ data,
        match availability data with
        | None => ([], Raise (KeyError (inl "availability")))
        | Some [] => ([warning dev], Ok None)
        | Some list_of_avails =>
            ([], Ok (Some (build_availability dev list_of_avails)))
        end)
  end.

(** First step of a task: up to the [await], where the request leaves. *)
Definition start {A} (c : coro A) : M (pending A) :=
  match c with
  | Done r => mret (Pending 0%nat [] r)
  | Await url k =>
      log_request url;;
      match reply_of net url with
      | Raise e => mret (Pending (S (latency net url)) [] (Raise e))
      | Ok data =>
          let '(lines, r) := k data in
          mret (Pending (S (latency net url)) lines r)
      end
  end.

Fixpoint start_all {A} (tasks : list (coro A)) : M (list (pending A)) :=
  match tasks with
  | [] => mret []
  | c :: rest => p ← start c; ps ← start_all rest; mret (p :: ps)
  end.

(** The tasks finish one after the other; the first one that raises ends
    the [await] on [gather]. *)
Fixpoint finish {A} (l : list (pending A)) : M () :=
  match l with
  | [] => mret ()
  | p :: rest =>
      print_lines (output p);;
      match outcome p with
      | Raise e => raise e
      | Ok _ => finish rest
      end
  end.

(** [await asyncio.gather] of the tasks: every task is started, in the order of
    the list; the results come back in that order too. *)
Definition gather {A} (tasks : list (coro A)) : M (list A) :=
  ps ← start_all tasks;
  finish (completion_order ps);;
  lift (all_outcomes ps).

(** [await c] of a single coroutine. *)
Definition await {A} (c : coro A) : M A :=
  p ← start c;
  print_lines (output p);;
  lift (outcome p).

Fixpoint advance_loop (results : list (option dict)) : M () :=
  match results with
  | [] => mret ()
  | result :: rest =>
      match result with
      | Some _ => advance
      | None => mret ()
      end;;
      advance_loop rest
  end.

Definition multi_async (description : string)
    (task_item : device → coro (option dict)) (device_list : list device)
  : M (list (option dict)) :=
  add_task description (length device_list);;
  let tasks := map task_item device_list in
  results ← gather tasks;
  advance_loop results;;
  mret results.

Definition average_availability (results : list (option dict))
  : res (report F) :=
  day ←r column DAY results;
  week ←r column WEEK results;
  month ←r column MONTH results;
  year ←r column YEAR results;
  average_day ←r mean day;
  average_week ←r mean week;
  average_month ←r mean month;
  average_year ←r mean year;
  Ok (Report average_day average_week average_month average_year).

(** [main()] up to [avail]. *)
Definition main : M (report F) :=
  device_list ← get_list_of_devices;
  results ← multi_async "[cyan]Requesting Device Availability..."
                        get_availability device_list;
  lift (average_availability results).

End Run.
End Async.

(** ** IEEE binary64 floats *)

Module B64.

Definition prec : Z := 53.
Definition emax : Z := 1024.

(** A double is a [spec_float] in canonical form for [prec] and [emax]. *)
Abbreviation float := spec_float.

Definition digit_of (c : ascii) : option Z :=
  let n := Z.of_N (N_of_ascii c) in
  if (48 <=? n) && (n <=? 57) then Some (n - 48) else None.

(** Reads the decimal digits at the head of [s]: the number they spell
    after those already read ([acc]), how many they are, and what is left. *)
Fixpoint digits (s : string) (acc : Z) (count : nat) : Z * nat * string :=
  match s with
  | EmptyString => (acc, count, s)
  | String c s' =>
      match digit_of c with
      | Some v => digits s' (10 * acc + v) (S count)
      | None => (acc, count, s)
      end
  end.

(** Plain decimal literals, [[sign] digits [. [digits]]] or
    [[sign] . digits], which is how LibreNMS spells a percentage: the
    sign, the integer that all the digits spell, and the number of digits
    after the point.  Exponents, [inf], [nan], underscores and blanks
    around the number, which [float] reads as well, are read by
    [of_str_general] below. *)
Definition parse_decimal (s : string) : option (bool * Z * nat) :=
  let '(negative, s1) :=
    match s with
    | String "-" s' => (true, s')
    | String "+" s' => (false, s')
    | _ => (false, s)
    end in
  let '(int_part, int_digits, s2) := digits s1 0 0 in
  match s2 with
  | EmptyString =>
      if Nat.eqb int_digits 0 then None else Some (negative, int_part, 0%nat)
  | String "." s3 =>
      let '(all, frac_digits, s4) := digits s3 int_part 0 in
      match s4 with
      | EmptyString =>
          if Nat.eqb (int_digits + frac_digits) 0 then None
          else Some (negative, all, frac_digits)
      | _ => None
      end
  | _ => None
  end.

(** Nearest integer to [num / den], ties to the even one. *)
Definition round_half_even (num den : Z) : Z :=
  let q := num / den in
  let r := num mod den in
  if 2 * r <? den then q
  else if den <? 2 * r then q + 1
  else if Z.even q then q else q + 1.

(** [n / d] at binary exponent [e]: [n / (d * 2^e)] rounded. *)
Definition scaled (n d e : Z) : Z :=
  if 0 <=? e then round_half_even n (d * 2 ^ e)
  else round_half_even (n * 2 ^ (- e)) d.

(** The exponent at which [n / d] has a 53-bit integer part, and not below
    that of the subnormal numbers. *)
Definition exponent_of (n d : Z) : Z :=
  let e0 := Z.log2 n - Z.log2 d - 52 in
  let q0 := if 0 <=? e0 then n / (d * 2 ^ e0) else (n * 2 ^ (- e0)) / d in
  let e1 := if q0 <? 2 ^ 52 then e0 - 1 else e0 in
  Z.max e1 (-1074).

(** The double nearest to [n / d] for [0 <= n] and [0 < d], as the
    correctly rounded [float] of a decimal literal is. *)
Definition nearest (negative : bool) (n d : Z) : float :=
  if n =? 0 then S754_zero negative
  else
    let e := exponent_of n d in
    let m := scaled n d e in
    let '(m', e') := if m =? 2 ^ 53 then (2 ^ 52, e + 1) else (m, e) in
    if m' =? 0 then S754_zero negative
    else if 971 <? e' then S754_infinity negative
    else S754_finite negative (Z.to_pos m') e'.

(** The other spellings that [float] reads. *)

(** The blanks that are stripped at both ends. *)
Definition is_space (c : ascii) : bool :=
  let n := Z.of_N (N_of_ascii c) in
  ((9 <=? n) && (n <=? 13)) || (n =? 32).

Fixpoint lstrip (s : string) : string :=
  match s with
  | EmptyString => s
  | String c s' => if is_space c then lstrip s' else s
  end.

Fixpoint rstrip (s : string) : string :=
  match s with
  | EmptyString => EmptyString
  | String c s' =>
      match rstrip s' with
      | EmptyString =>
          if is_space c then EmptyString else String c EmptyString
      | rest => String c rest
      end
  end.

(** What stood in front of the character being read. *)
Inductive seen : Type := Digit | Underscore | Other.

(** An underscore may stand between two digits and nowhere else; the
    underscores are dropped. *)
Fixpoint drop_underscores (s : string) (prev : seen) : option string :=
  match s with
  | EmptyString =>
      match prev with
      | Underscore => None
      | _ => Some EmptyString
      end
  | String c s' =>
      if Ascii.eqb c "_" then
        match prev with
        | Digit => drop_underscores s' Underscore
        | _ => None
        end
      else
        match digit_of c, prev with
        | Some _, _ => String c <$> drop_underscores s' Digit
        | None, Underscore => None
        | None, _ => String c <$> drop_underscores s' Other
        end
  end.

Definition lower (c : ascii) : ascii :=
  let n := N_of_ascii c in
  if (65 <=? n)%N && (n <=? 90)%N then ascii_of_N (n + 32) else c.

Fixpoint lower_all (s : string) : string :=
  match s with
  | EmptyString => EmptyString
  | String c s' => String (lower c) (lower_all s')
  end.

Definition split_sign (s : string) : bool * string :=
  match s with
  | String "-" s' => (true, s')
  | String "+" s' => (false, s')
  | _ => (false, s)
  end.

(** [inf], [infinity] and [nan], signed or not, in any case of letters. *)
Definition parse_special (s : string) : option float :=
  let '(negative, s1) := split_sign s in
  let word := lower_all s1 in
  if String.eqb word "inf" || String.eqb word "infinity" then
    Some (S754_infinity negative)
  else if String.eqb word "nan" then Some S754_nan
  else None.

(** [[sign] digits [. [digits]] [e [sign] digits]] with a digit before
    the exponent: the sign, the integer [n] that the digits of the
    mantissa spell, and the power of ten [p] that [n] is to be taken
    with. *)
Definition parse_number (s : string) : option (bool * Z * Z) :=
  let '(negative, s1) := split_sign s in
  let '(int_part, int_digits, s2) := digits s1 0 0 in
  let '(all, frac_digits, s3) :=
    match s2 with
    | String "." s' => digits s' int_part 0
    | _ => (int_part, 0%nat, s2)
    end in
  if Nat.eqb (int_digits + frac_digits) 0 then None
  else
    match s3 with
    | EmptyString => Some (negative, all, - Z.of_nat frac_digits)
    | String c s4 =>
        if Ascii.eqb (lower c) "e" then
          let '(down, s5) := split_sign s4 in
          let '(x, exp_digits, s6) := digits s5 0 0 in
          match s6 with
          | EmptyString =>
              if Nat.eqb exp_digits 0 then None
              else Some (negative, all,
                         (if down then - x else x) - Z.of_nat frac_digits)
          | _ => None
          end
        else None
    end.

(** The double nearest to [n * 10^p]. *)
Definition scale (negative : bool) (n p : Z) : float :=
  if 0 <=? p then nearest negative (n * 10 ^ p) 1
  else nearest negative n (10 ^ (- p)).

Definition of_str_general (s : string) : option float :=
  match drop_underscores (rstrip (lstrip s)) Other with
  | None => None
  | Some t =>
      match parse_special t with
      | Some x => Some x
      | None =>
          match parse_number t with
          | Some (negative, n, p) => Some (scale negative n p)
          | None => None
          end
      end
  end.

(** [float(s)] for a string of ASCII characters: a plain decimal literal
    first, any other spelling after that. *)
Definition of_str (s : string) : option float :=
  match parse_decimal s with
  | Some (negative, n, frac_digits) =>
      Some (nearest negative n (10 ^ Z.of_nat frac_digits))
  | None => of_str_general s
  end.

Definition add (x y : float) : float := SFadd prec emax x y.

Definition div (x y : float) : float := SFdiv prec emax x y.

(** [float(n)] of an int. *)
Definition of_int (n : Z) : float := binary_normalize prec emax n 0 false.

(** [sum] starts from the int 0 and adds from the left, rounding after
    each addition (CPython up to 3.11; from 3.12 on the additions of
    floats are compensated). *)
Definition sum (xs : list float) : float := fold_left add xs (of_int 0).

(** From CPython 3.12 on, [sum] over floats carries the rounding error
    of each addition in a second double (Neumaier's variant of Kahan's
    summation) and adds it at the end, unless it is zero or not
    finite. *)
Definition sub (x y : float) : float := SFsub prec emax x y.

Definition abs_ge (x y : float) : bool := SFleb (SFabs y) (SFabs x).

Definition compensated_step (acc : float * float) (x : float)
  : float * float :=
  let '(f_result, c) := acc in
  let t := add f_result x in
  (t, if abs_ge f_result x then add c (add (sub f_result t) x)
      else add c (add (sub x t) f_result)).

Definition nonzero_finite (c : float) : bool :=
  match c with S754_finite _ _ _ => true | _ => false end.

Definition sum_compensated (xs : list float) : float :=
  let '(f_result, c) := fold_left compensated_step xs (of_int 0, of_int 0) in
  if nonzero_finite c then add f_result c else f_result.

Definition div_int (x : float) (n : Z) : float := div x (of_int n).

(** The exact value of a finite double, as numerator and denominator. *)
Definition value (x : float) : option (Z * Z) :=
  match x with
  | S754_zero _ => Some (0, 1)
  | S754_finite s m e =>
      let m := if s then Z.neg m else Z.pos m in
      Some (if 0 <=? e then (m * 2 ^ e, 1) else (m, 2 ^ (- e)))
  | _ => None
  end.

End B64.

Global Instance b64_float : PyFloat B64.float := {|
  float_of_str := B64.of_str;
  float_sum := B64.sum;
  float_div_int := B64.div_int
|}.

(** ** What a run is expected to do, stated without the world

    The functions of this section are not in the source; the theorems
    below relate the two scripts to them. *)

Section Fetched.
Variable LIBRENMS_URL : string.
Variable net : network.

(** How fetching a device ends. *)
Definition fetched (dev : device) : res (option dict) :=
  match primary_ip4 dev with
  | None => Raise TypeError
  | Some address =>
      match reply_of net (availability_url LIBRENMS_URL address) with
      | Raise e => Raise e
      | Ok data =>
          match availability data with
          | None => Raise (KeyError (inl "availability"))
          | Some [] => Ok None
          | Some l => Ok (Some (build_availability dev l))
          end
      end
  end.

(** The URLs it asks for. *)
Definition fetch_requests (dev : device) : list string :=
  match primary_ip4 dev with
  | None => []
  | Some address => [availability_url LIBRENMS_URL address]
  end.

(** The lines it prints. *)
Definition fetch_output (dev : device) : list string :=
  match fetched dev with
  | Ok None => [warning dev]
  | _ => []
  end.

(** The results of all devices, or the exception of the first device, in
    the order of the list, whose fetch raises. *)
Fixpoint fetch_all (devs : list device) : res (list (option dict)) :=
  match devs with
  | [] => Ok []
  | dev :: rest =>
      r ←r fetched dev; rs ←r fetch_all rest; Ok (r :: rs)
  end.

(** The results of the devices in front of the first failing one. *)
Fixpoint served_results (devs : list device) : list (option dict) :=
  match devs with
  | [] => []
  | dev :: rest =>
      match fetched dev with
      | Ok r => r :: served_results rest
      | Raise _ => []
      end
  end.

(** The devices up to and including the first failing one. *)
Fixpoint attempted (devs : list device) : list device :=
  match devs with
  | [] => []
  | dev :: rest =>
      dev :: (if is_ok (fetched dev) then attempted rest else [])
  end.

(** The task of [gather] that fetches [dev], after its first step. *)
Definition pending_of (dev : device) : Async.pending (option dict) :=
  Async.Pending
    match primary_ip4 dev with
    | None => 0%nat
    | Some address => S (latency net (availability_url LIBRENMS_URL address))
    end
    (fetch_output dev) (fetched dev).

End Fetched.

(** Number of entries of a result list that are records. *)
Fixpoint records (results : list (option dict)) : nat :=
  match results with
  | [] => 0
  | Some _ :: rest => S (records rest)
  | None :: rest => records rest
  end.

Section Windows.
Context {F : Type} `{PyFloat F}.

(** The numbers of window [k]: what [float] makes of the value under key
    [k], for the records that have the key and a readable value there. *)
Definition window (k : Z) (results : list (option dict)) : list F :=
  omap (λ r : option dict,
          d ← r; s ← d !! (inr k : key); float_of_str s) results.

(** Every record has the four windows, each with a readable number. *)
Definition complete (results : list (option dict)) : Prop :=
  Forall (λ r : option dict,
            ∀ d, r = Some d → ∀ k, k ∈ standard_durations →
              ∃ s x, d !! (inr k : key) = Some s ∧ float_of_str s = Some x)
         results.

(** Sum divided by count. *)
Definition mean_of (xs : list F) : F :=
  float_div_int (float_sum xs) (Z.of_nat (length xs)).

End Windows.

(** Whether fetching [dev] ends in None: LibreNMS knows the device and
    has no sample of it. *)
Definition is_absent (LIBRENMS_URL : string) (net : network) (dev : device)
  : bool :=
  match fetched LIBRENMS_URL net dev with
  | Ok None => true
  | _ => false
  end.

(** The URL a device is asked under, when it has an address. *)
Definition url_of (LIBRENMS_URL : string) (dev : device) : option string :=
  availability_url LIBRENMS_URL <$> primary_ip4 dev.

(** Two results that the aggregator cannot tell apart: both None, or two
    records with the same values under the four windows. *)
Definition same_windows (r r' : option dict) : Prop :=
  match r, r' with
  | None, None => True
  | Some d, Some d' =>
      ∀ k, k ∈ standard_durations → d !! (inr k : key) = d' !! (inr k : key)
  | _, _ => False
  end.

(** ** The closing print statements, for doubles *)

Module Printed.

(** The sign bit of a double. *)
Definition sign_of (x : B64.float) : bool :=
  match x with
  | S754_zero s | S754_infinity s | S754_finite s _ _ => s
  | S754_nan => false
  end.

(** The magnitude of a finite double in thousandths, rounded to the
    nearest integer, ties to the even one. *)
Definition thousandths (x : B64.float) : option Z :=
  match B64.value x with
  | Some (num, den) => Some (B64.round_half_even (Z.abs num * 1000) den)
  | None => None
  end.

(** [round(x, 3)]: the double nearest to the nearest multiple of 1/1000;
    infinities and nan round to themselves. *)
Definition round3 (x : B64.float) : B64.float :=
  match thousandths x with
  | Some n => B64.nearest (sign_of x) n 1000
  | None => x
  end.

Definition digit (d : Z) : ascii := ascii_of_N (Z.to_N (48 + d)).

(** [n] thousandths written with three decimals. *)
Definition render3 (negative : bool) (n : Z) : string :=
  (if negative then "-" else "") +:+
  NilZero.string_of_uint (N.to_uint (Z.to_N (n / 1000))) +:+ "." +:+
  String (digit (n / 100 mod 10))
    (String (digit (n / 10 mod 10)) (String (digit (n mod 10)) "")).

(** [format(x, ".3f")] *)
Definition fixed3 (x : B64.float) : string :=
  match thousandths x with
  | Some n => render3 (sign_of x) n
  | None =>
      match x with
      | S754_infinity true => "-inf"
      | S754_infinity false => "inf"
      | _ => "nan"
      end
  end.

Definition banner : string := "****************************************".

(** The eight lines that the script prints once it has [avail]. *)
Definition report_lines (avail : report B64.float) : list string :=
  [ banner;
    "Network Device Availability.";
    banner;
    fixed3 (round3 (day avail)) +:+ "% availability yesterday";
    fixed3 (round3 (week avail)) +:+ "% availability for the past week.";
    fixed3 (round3 (month avail)) +:+ "% availability for the past month.";
    fixed3 (round3 (year avail)) +:+ "% availability for the past year.";
    banner ].

Fixpoint print_all (lines : list string) : M () :=
  match lines with
  | [] => mret ()
  | line :: rest => console_print line;; print_all rest
  end.

(** The whole [__main__] block of Switch_Availability.py. *)
Definition sync_main (LIBRENMS_URL : string) (net : network)
    (inventory : res (list device)) : M () :=
  avail ← Sync.main LIBRENMS_URL net inventory;
  print_all (report_lines avail).

(** The whole [main()] of Switch_Availability_asyncio.py. *)
Definition async_main (LIBRENMS_URL : string) (net : network)
    (inventory : res (list device)) : M () :=
  avail ← Async.main LIBRENMS_URL net inventory;
  print_all (report_lines avail).

(** A double between 0 and 100. *)
Definition percentage (x : B64.float) : Prop :=
  ∃ num den, B64.value x = Some (num, den) ∧ sign_of x = false ∧
             0 ≤ num ≤ 100 * den.

End Printed.

(** Whether [n] thousandths, written with three decimals, are read by
    [B64.parse_decimal] as the integer [n] with three digits after the
    point; and whether this holds for [count] integers from [n] on. *)
Definition reads_back (n : Z) : bool :=
  match B64.parse_decimal (Printed.render3 false n) with
  | Some (false, m, 3%nat) => m =? n
  | _ => false
  end.

Fixpoint all_from (count : nat) (n : Z) : bool :=
  match count with
  | O => true
  | S count' => reads_back n && all_from count' (n + 1)
  end.

(** ** A small installation for the concrete runs *)

Module Lab.

Definition url : string := "https://nms.example/api/v0/devices/".

Definition windows (d w m y : string) : list entry :=
  [Entry d DAY; Entry w WEEK; Entry m MONTH; Entry y YEAR].

(** Answers with the sample response of the source. *)
Definition core1 : device := Device "core1" (Some "10.0.0.1/24").
(** Answers as well, a little worse. *)
Definition core2 : device := Device "core2" (Some "10.0.0.2/24").
(** Known to LibreNMS, without any sample. *)
Definition spare : device := Device "spare" (Some "10.0.0.3/24").
(** LibreNMS cannot be reached for this one. *)
Definition gone : device := Device "gone" (Some "10.0.0.4/24").

Definition net : network := {|
  reply_of u :=
    if String.eqb u (url +:+ "10.0.0.1/availability") then
      Ok (Body (Some (windows "100.000000" "100.000000" "100.000000"
                              "99.999000")))
    else if String.eqb u (url +:+ "10.0.0.2/availability") then
      Ok (Body (Some (windows "99.000000" "99.500000" "98.000000"
                              "97.000000")))
    else if String.eqb u (url +:+ "10.0.0.3/availability") then
      Ok (Body (Some []))
    else Raise ConnectionError;
  latency u := 0%nat
|}.

(** A record without the day window. *)
Definition no_day : dict :=
  build_availability core2
    [Entry "99.500000" WEEK; Entry "98.000000" MONTH; Entry "97.000000" YEAR].

(** A record with all four windows. *)
Definition full : dict :=
  build_availability core1
    (windows "100.000000" "100.000000" "100.000000" "99.999000").

(** The world of [__main__] when [multi_proc] is called. *)
Definition ready : world :=
  {| requests := []; console := []; task_total := None; ticks := 0;
     g_results := Some [] |}.

End Lab.

(** More records for the concrete runs. *)
Module Bench.

(** All four windows at 0.1, 0.2 and 0.3 per cent. *)
Definition tenth : dict :=
  build_availability Lab.core1
    (Lab.windows "0.100000" "0.100000" "0.100000" "0.100000").
Definition fifth : dict :=
  build_availability Lab.core2
    (Lab.windows "0.200000" "0.200000" "0.200000" "0.200000").
Definition three_tenths : dict :=
  build_availability Lab.spare
    (Lab.windows "0.300000" "0.300000" "0.300000" "0.300000").

(** The record of [Lab.core2]. *)
Definition second : dict :=
  build_availability Lab.core2
    (Lab.windows "99.000000" "99.500000" "98.000000" "97.000000").

End Bench.

(** * Properties *)

(** ** The monad *)

Lemma bind_ok {A B} (m : M A) (k : A → M B) w w' a :
  m w = (w', Ok a) → (m ≫= k) w = k a w'.
Proof. intros E. unfold mbind, M_bind. by rewrite E. Qed.

Lemma bind_raise {A B} (m : M A) (k : A → M B) w w' e :
  m w = (w', Raise e) → (m ≫= k) w = (w', Raise e).
Proof. intros E. unfold mbind, M_bind. by rewrite E. Qed.

Lemma world_eta w :
  World (requests w) (console w) (task_total w) (ticks w) (g_results w) = w.
Proof. by destruct w. Qed.

(** ** The fetchers *)

Section FetcherFacts.
Variable LIBRENMS_URL : string.
Variable net : network.

Local Abbreviation fetched := (fetched LIBRENMS_URL net).
Local Abbreviation fetch_requests := (fetch_requests LIBRENMS_URL).
Local Abbreviation fetch_output := (fetch_output LIBRENMS_URL net).
Local Abbreviation pending_of := (pending_of LIBRENMS_URL net).

Lemma sync_get_availability_run dev w :
  Sync.get_availability LIBRENMS_URL net dev w =
    (World (requests w ++ fetch_requests dev) (console w ++ fetch_output dev)
           (task_total w) (ticks w) (g_results w),
     fetched dev).
Proof.
  unfold Sync.get_availability, fetch_output, fetched, fetch_requests.
  destruct (primary_ip4 dev) as [a|]; cbn.
  2: { by rewrite !app_nil_r, world_eta. }
  unfold mbind, M_bind, lift, log_request; cbn.
  destruct (reply_of net _) as [[[l|]]|e]; cbn; rewrite ?app_nil_r; try done.
  destruct l; cbn; by rewrite ?app_nil_r.
Qed.

Lemma print_lines_run lines w :
  Async.print_lines lines w =
    (World (requests w) (console w ++ lines) (task_total w) (ticks w)
           (g_results w), Ok ()).
Proof.
  revert w. induction lines as [|line lines IH]; intros w; cbn.
  - by rewrite app_nil_r, world_eta.
  - unfold mbind, M_bind, console_print; cbn. rewrite IH; cbn.
    by rewrite <- app_assoc.
Qed.

Lemma async_start_run dev w :
  Async.start net (Async.get_availability LIBRENMS_URL dev) w =
    (World (requests w ++ fetch_requests dev) (console w)
           (task_total w) (ticks w) (g_results w),
     Ok (pending_of dev)).
Proof.
  unfold Async.start, Async.get_availability, pending_of, fetch_output,
    fetched, fetch_requests.
  destruct (primary_ip4 dev) as [a|]; cbn.
  2: { by rewrite app_nil_r, world_eta. }
  unfold mbind, M_bind, log_request; cbn.
  destruct (reply_of net _) as [[[l|]]|e]; cbn; try done.
  by destruct l.
Qed.

Lemma async_get_availability_run dev w :
  Async.await net (Async.get_availability LIBRENMS_URL dev) w =
    (World (requests w ++ fetch_requests dev) (console w ++ fetch_output dev)
           (task_total w) (ticks w) (g_results w),
     fetched dev).
Proof.
  unfold Async.await.
  rewrite (bind_ok _ _ _ _ _ (async_start_run dev w)); cbn.
  unfold mbind, M_bind. rewrite print_lines_run; cbn. done.
Qed.

End FetcherFacts.

(** ** The schedulers *)

Section SchedulerFacts.
Variable LIBRENMS_URL : string.
Variable net : network.

Local Abbreviation fetched := (fetched LIBRENMS_URL net).
Local Abbreviation fetch_requests := (fetch_requests LIBRENMS_URL).
Local Abbreviation fetch_output := (fetch_output LIBRENMS_URL net).
Local Abbreviation pending_of := (pending_of LIBRENMS_URL net).
Local Abbreviation fetch_all := (fetch_all LIBRENMS_URL net).
Local Abbreviation served_results := (served_results LIBRENMS_URL net).
Local Abbreviation attempted := (attempted LIBRENMS_URL net).

Lemma fetch_all_ok devs rs :
  fetch_all devs = Ok rs →
  served_results devs = rs ∧ attempted devs = devs ∧
  length rs = length devs ∧ Forall2 (λ dev r, fetched dev = Ok r) devs rs.
Proof.
  revert rs. induction devs as [|dev devs IH]; intros rs; cbn.
  - intros [= <-]. by repeat split.
  - destruct (fetched dev) as [r|e] eqn:E; cbn; [|done].
    destruct (fetch_all devs) as [rs'|e]; cbn; [|done].
    intros [= <-]. destruct (IH rs' eq_refl) as (-> & -> & Hlen & Hall).
    repeat split; cbn; [by rewrite Hlen|by constructor].
Qed.

Lemma fetch_all_raise devs e :
  fetch_all devs = Raise e →
  (∃ dev, dev ∈ devs ∧ fetched dev = Raise e) ∧
  (length (served_results devs) < length devs)%nat.
Proof.
  induction devs as [|dev devs IH]; cbn; [done|].
  destruct (fetched dev) as [r|e'] eqn:E; cbn.
  - destruct (fetch_all devs) as [rs'|e'']; cbn; [done|].
    intros [= ->]. destruct (IH eq_refl) as [(dev' & Hin & Hdev') Hlen].
    split; [|lia]. exists dev'. split; [by right|done].
  - intros [= ->]. split; [|lia]. exists dev. split; [by left|done].
Qed.

Lemma fetch_all_some_failure devs dev e :
  dev ∈ devs → fetched dev = Raise e → ∃ e', fetch_all devs = Raise e'.
Proof.
  induction devs as [|d devs IH]; [by intros ?%elem_of_nil|].
  intros [->|Hin]%elem_of_cons Hdev; cbn.
  - rewrite Hdev. by eexists.
  - destruct (fetched d); cbn; [|by eexists].
    destruct (IH Hin Hdev) as [e' ->]. by eexists.
Qed.

Lemma sync_imap_loop_run devs w l0 :
  g_results w = Some l0 →
  Sync.imap_loop (Sync.get_availability LIBRENMS_URL net) devs w =
    (World (requests w ++ concat (map fetch_requests (attempted devs)))
           (console w ++ concat (map fetch_output (attempted devs)))
           (task_total w)
           (ticks w + length (served_results devs))%nat
           (Some (l0 ++ served_results devs)),
     _ ←r fetch_all devs; Ok ()).
Proof.
  revert w l0. induction devs as [|dev devs IH]; intros w l0 Hg; cbn.
  - rewrite !app_nil_r, Nat.add_0_r, <- Hg. by rewrite world_eta.
  - unfold mbind at 1, M_bind at 1. rewrite sync_get_availability_run.
    destruct (fetched dev) as [r|e] eqn:E; cbn.
    + unfold mbind at 1, M_bind at 1, results_append at 1; cbn. rewrite Hg.
      unfold mbind at 1, M_bind at 1, advance at 1; cbn.
      rewrite (IH _ (l0 ++ [r])); [|done]; cbn.
      rewrite <- !app_assoc; cbn. rewrite Nat.add_succ_r.
      by destruct (fetch_all devs).
    + rewrite !app_nil_r, Nat.add_0_r, <- Hg. done.
Qed.

Lemma sync_imap_loop_unbound dev devs w r :
  g_results w = None → fetched dev = Ok r →
  Sync.imap_loop (Sync.get_availability LIBRENMS_URL net) (dev :: devs) w =
    (World (requests w ++ fetch_requests dev) (console w ++ fetch_output dev)
           (task_total w) (ticks w) None,
     Raise (NameError "results")).
Proof.
  intros Hg E; cbn.
  unfold mbind at 1, M_bind at 1. rewrite sync_get_availability_run, E.
  unfold mbind at 1, M_bind at 1, results_append at 1; cbn. by rewrite Hg.
Qed.

Lemma sync_imap_loop_first_raise dev devs w e :
  fetched dev = Raise e →
  Sync.imap_loop (Sync.get_availability LIBRENMS_URL net) (dev :: devs) w =
    (World (requests w ++ fetch_requests dev) (console w ++ fetch_output dev)
           (task_total w) (ticks w) (g_results w),
     Raise e).
Proof.
  intros E; cbn.
  unfold mbind at 1, M_bind at 1. by rewrite sync_get_availability_run, E.
Qed.

Lemma advance_loop_run results w :
  Async.advance_loop results w =
    (World (requests w) (console w) (task_total w)
           (ticks w + records results)%nat (g_results w), Ok ()).
Proof.
  revert w. induction results as [|r results IH]; intros w; cbn.
  - by rewrite Nat.add_0_r, world_eta.
  - unfold mbind at 1, M_bind at 1. destruct r as [d|]; cbn.
    + rewrite IH; cbn. by rewrite Nat.add_succ_r.
    + by rewrite IH.
Qed.

Lemma start_all_run devs w :
  Async.start_all net (map (Async.get_availability LIBRENMS_URL) devs) w =
    (World (requests w ++ concat (map fetch_requests devs)) (console w)
           (task_total w) (ticks w) (g_results w),
     Ok (map pending_of devs)).
Proof.
  revert w. induction devs as [|dev devs IH]; intros w; cbn.
  - by rewrite app_nil_r, world_eta.
  - rewrite (bind_ok _ _ _ _ _ (async_start_run _ _ dev w)).
    rewrite (bind_ok _ _ _ _ _ (IH _)); cbn. by rewrite <- app_assoc.
Qed.

Lemma all_outcomes_pending devs :
  Async.all_outcomes (map pending_of devs) = fetch_all devs.
Proof.
  induction devs as [|dev devs IH]; cbn; [done|]. by rewrite IH.
Qed.

Lemma insert_by_due_perm {A} (p : Async.pending A) l :
  Async.insert_by_due p l ≡ₚ p :: l.
Proof.
  induction l as [|q l IH]; cbn; [done|].
  destruct (Nat.leb _ _); [done|]. rewrite IH. apply Permutation_swap.
Qed.

Lemma completion_order_perm {A} (l : list (Async.pending A)) :
  Async.completion_order l ≡ₚ l.
Proof.
  induction l as [|p l IH]; cbn; [done|].
  rewrite insert_by_due_perm. by rewrite IH.
Qed.

Lemma finish_all_ok {A} (l : list (Async.pending A)) w :
  Forall (λ p, is_ok (Async.outcome p) = true) l →
  Async.finish l w =
    (World (requests w) (console w ++ concat (map Async.output l))
           (task_total w) (ticks w) (g_results w), Ok ()).
Proof.
  intros Hall. revert w.
  induction Hall as [|p l Hp _ IH]; intros w; cbn.
  - by rewrite app_nil_r, world_eta.
  - unfold mbind at 1, M_bind at 1. rewrite print_lines_run.
    destruct (Async.outcome p); [|done].
    rewrite IH; cbn. by rewrite <- app_assoc.
Qed.

Lemma finish_some_raise {A} (l : list (Async.pending A)) w :
  Exists (λ p, is_ok (Async.outcome p) = false) l →
  ∃ lines e p,
    Async.finish l w =
      (World (requests w) (console w ++ lines)
             (task_total w) (ticks w) (g_results w), Raise e) ∧
    p ∈ l ∧ Async.outcome p = Raise e.
Proof.
  revert w. induction l as [|p l IH]; intros w Hex.
  { by apply Exists_nil in Hex. }
  cbn. unfold mbind at 1, M_bind at 1. rewrite print_lines_run.
  destruct (Async.outcome p) as [a|e] eqn:E.
  - apply Exists_cons in Hex as [Hp|Hl]; [by rewrite E in Hp|].
    destruct (IH (World (requests w) (console w ++ Async.output p)
                        (task_total w) (ticks w) (g_results w)) Hl)
      as (lines & e & q & -> & Hq & Eq).
    exists (Async.output p ++ lines), e, q; cbn.
    rewrite <- app_assoc. split; [done|]. split; [by right|done].
  - exists (Async.output p), e, p. split; [done|]. split; [by left|done].
Qed.

Lemma all_outcomes_ok_forall {A} (l : list (Async.pending A)) rs :
  Async.all_outcomes l = Ok rs →
  Forall (λ p, is_ok (Async.outcome p) = true) l.
Proof.
  revert rs. induction l as [|p l IH]; intros rs; cbn; [by constructor|].
  destruct (Async.outcome p) eqn:E; cbn; [|done].
  destruct (Async.all_outcomes l) eqn:El; cbn; [|done].
  intros _. constructor; [by rewrite E|by eapply IH].
Qed.

Lemma all_outcomes_raise_exists {A} (l : list (Async.pending A)) e :
  Async.all_outcomes l = Raise e →
  Exists (λ p, is_ok (Async.outcome p) = false) l.
Proof.
  induction l as [|p l IH]; cbn; [done|].
  destruct (Async.outcome p) eqn:E; cbn.
  - destruct (Async.all_outcomes l) eqn:El; cbn; [done|].
    intros [= ->]. right. by apply IH.
  - intros _. left. by rewrite E.
Qed.

(** [gather] when every fetch returns. *)
Lemma gather_all_ok devs rs w :
  fetch_all devs = Ok rs →
  Async.gather net (map (Async.get_availability LIBRENMS_URL) devs) w =
    (World (requests w ++ concat (map fetch_requests devs))
           (console w ++
              concat (map Async.output
                        (Async.completion_order (map pending_of devs))))
           (task_total w) (ticks w) (g_results w),
     Ok rs).
Proof.
  intros Hall. unfold Async.gather.
  rewrite (bind_ok _ _ _ _ _ (start_all_run devs w)).
  rewrite <- all_outcomes_pending in Hall.
  pose proof (all_outcomes_ok_forall _ _ Hall) as Hok.
  rewrite <- completion_order_perm in Hok.
  unfold mbind at 1, M_bind at 1. rewrite (finish_all_ok _ _ Hok); cbn.
  unfold lift. by rewrite Hall.
Qed.

(** [gather] when some fetch raises. *)
Lemma gather_some_raise devs e0 w :
  fetch_all devs = Raise e0 →
  ∃ lines e dev,
    Async.gather net (map (Async.get_availability LIBRENMS_URL) devs) w =
      (World (requests w ++ concat (map fetch_requests devs))
             (console w ++ lines)
             (task_total w) (ticks w) (g_results w), Raise e) ∧
    dev ∈ devs ∧ fetched dev = Raise e.
Proof.
  intros Hraise. unfold Async.gather.
  rewrite (bind_ok _ _ _ _ _ (start_all_run devs w)).
  rewrite <- all_outcomes_pending in Hraise.
  pose proof (all_outcomes_raise_exists _ _ Hraise) as Hex.
  rewrite <- completion_order_perm in Hex.
  destruct (finish_some_raise _
              (World (requests w ++ concat (map fetch_requests devs))
                     (console w) (task_total w) (ticks w) (g_results w)) Hex)
    as (lines & e & p & Efin & Hp & Ep).
  rewrite completion_order_perm in Hp.
  apply list_elem_of_fmap in Hp as (dev & -> & Hdev).
  exists lines, e, dev.
  rewrite (bind_raise _ _ _ _ _ Efin). done.
Qed.

End SchedulerFacts.

(** ** Whole runs *)

Section RunFacts.
Context {F : Type} `{PyFloat F}.
Variable LIBRENMS_URL : string.
Variable net : network.

Local Abbreviation fetch_requests := (fetch_requests LIBRENMS_URL).
Local Abbreviation fetch_output := (fetch_output LIBRENMS_URL net).
Local Abbreviation fetch_all := (fetch_all LIBRENMS_URL net).
Local Abbreviation served_results := (served_results LIBRENMS_URL net).
Local Abbreviation attempted := (attempted LIBRENMS_URL net).

Lemma sync_multi_proc_run description devs w l0 :
  g_results w = Some l0 →
  Sync.multi_proc description (Sync.get_availability LIBRENMS_URL net) devs w =
    (World (requests w ++ concat (map fetch_requests (attempted devs)))
           (console w ++ concat (map fetch_output (attempted devs)))
           (Some (length devs))
           (length (served_results devs))
           (Some (l0 ++ served_results devs)),
     _ ←r fetch_all devs; Ok ()).
Proof.
  intros Hg. unfold Sync.multi_proc, mbind, M_bind, add_task.
  by rewrite (sync_imap_loop_run _ _ _ _ l0).
Qed.

Lemma sync_main_run devs w :
  Sync.main LIBRENMS_URL net (Ok devs) w =
    (World (requests w ++ concat (map fetch_requests (attempted devs)))
           (console w ++ concat (map fetch_output (attempted devs)))
           (Some (length devs))
           (length (served_results devs))
           (Some (served_results devs)),
     rs ←r fetch_all devs; Sync.average_availability (F:=F) rs).
Proof.
  unfold Sync.main, Sync.get_list_of_devices, lift.
  unfold mbind at 1, M_bind at 1.
  unfold mbind at 1, M_bind at 1, bind_results at 1.
  unfold mbind at 1, M_bind at 1.
  rewrite (sync_multi_proc_run _ _ _ []); [|done]; cbn.
  destruct (fetch_all devs) as [rs|e] eqn:E; cbn; [|done].
  apply fetch_all_ok in E as (-> & _). done.
Qed.

Lemma sync_main_no_inventory e w :
  Sync.main (F:=F) LIBRENMS_URL net (Raise e) w = (w, Raise e).
Proof. done. Qed.

Lemma async_multi_async_ok description devs rs w :
  fetch_all devs = Ok rs →
  Async.multi_async net description (Async.get_availability LIBRENMS_URL)
                    devs w =
    (World (requests w ++ concat (map fetch_requests devs))
           (console w ++
              concat (map Async.output
                        (Async.completion_order
                           (map (pending_of LIBRENMS_URL net) devs))))
           (Some (length devs)) (records rs) (g_results w),
     Ok rs).
Proof.
  intros E. unfold Async.multi_async.
  unfold mbind at 1, M_bind at 1, add_task at 1.
  unfold mbind at 1, M_bind at 1.
  rewrite (gather_all_ok _ _ _ _ _ E); cbn.
  unfold mbind at 1, M_bind at 1. by rewrite advance_loop_run.
Qed.

Lemma async_multi_async_raise description devs e0 w :
  fetch_all devs = Raise e0 →
  ∃ lines e dev,
    Async.multi_async net description (Async.get_availability LIBRENMS_URL)
                      devs w =
      (World (requests w ++ concat (map fetch_requests devs))
             (console w ++ lines)
             (Some (length devs)) 0 (g_results w),
       Raise e) ∧
    dev ∈ devs ∧ fetched LIBRENMS_URL net dev = Raise e.
Proof.
  intros E. unfold Async.multi_async.
  unfold mbind at 1, M_bind at 1, add_task at 1.
  destruct (gather_some_raise _ _ _ _
              (World (requests w) (console w) (Some (length devs)) 0
                     (g_results w)) E)
    as (lines & e & dev & Eg & Hdev).
  exists lines, e, dev. by rewrite (bind_raise _ _ _ _ _ Eg).
Qed.

Lemma async_main_ok devs rs w :
  fetch_all devs = Ok rs →
  (Async.main LIBRENMS_URL net (Ok devs) w).2 =
    Async.average_availability (F:=F) rs.
Proof.
  intros E. unfold Async.main, Async.get_list_of_devices, lift.
  unfold mbind at 1, M_bind at 1.
  by rewrite (bind_ok _ _ _ _ _ (async_multi_async_ok _ _ _ _ E)).
Qed.

Lemma async_main_raise devs e0 w :
  fetch_all devs = Raise e0 →
  ∃ e dev w',
    Async.main (F:=F) LIBRENMS_URL net (Ok devs) w = (w', Raise e) ∧
    ticks w' = 0%nat ∧ dev ∈ devs ∧ fetched LIBRENMS_URL net dev = Raise e.
Proof.
  intros E. unfold Async.main, Async.get_list_of_devices, lift.
  unfold mbind at 1, M_bind at 1.
  destruct (async_multi_async_raise
              "[cyan]Requesting Device Availability..." _ _ w E)
    as (lines & e & dev & Em & Hdev).
  exists e, dev. eexists. by rewrite (bind_raise _ _ _ _ _ Em).
Qed.

End RunFacts.

(** ** Concrete runs *)

(** Devices with day values 100.0 and 99.0 average to 99.5
    ([7001690045677568 * 2^-46]), in both scripts. *)
Example two_devices_day_average :
  day <$> value_of (Sync.main Lab.url Lab.net (Ok [Lab.core1; Lab.core2])
                              initial_world).2
    = Some (S754_finite false 7001690045677568 (-46)) ∧
  day <$> value_of (Async.main Lab.url Lab.net (Ok [Lab.core1; Lab.core2])
                               initial_world).2
    = Some (S754_finite false 7001690045677568 (-46)) ∧
  B64.value (S754_finite false 7001690045677568 (-46))
    = Some (995 * 2 ^ 46 / 10, 2 ^ 46).
Proof. by vm_compute. Qed.

(** ** The record of a device *)

Lemma foldl_insert_lookup (l : list entry) (d : dict) (k : Z) :
  foldl (λ (d : dict) avail,
           <[inr (duration avail) := availability_perc avail]> d) d l
    !! (inr k : key)
  = match last (filter (λ a, duration a = k) l) with
    | Some a => Some (availability_perc a)
    | None => d !! (inr k : key)
    end.
Proof.
  revert d. induction l as [|a l IH]; intros d; [done|].
  rewrite filter_cons. cbn [foldl]. rewrite IH.
  destruct (decide (duration a = k)) as [->|Hne].
  - rewrite last_cons. destruct (last _); [done|].
    by rewrite lookup_insert_eq.
  - destruct (last _); [done|].
    rewrite lookup_insert_ne; [done|congruence].
Qed.

Lemma foldl_insert_lookup_inl (l : list entry) (d : dict) (s : string) :
  foldl (λ (d : dict) avail,
           <[inr (duration avail) := availability_perc avail]> d) d l
    !! (inl s : key) = d !! (inl s : key).
Proof.
  revert d. induction l as [|a l IH]; intros d; cbn; [done|].
  rewrite IH. by rewrite lookup_insert_ne.
Qed.

Lemma build_availability_duration dev l k :
  build_availability dev l !! (inr k : key)
  = availability_perc <$> last (filter (λ a, duration a = k) l).
Proof.
  unfold build_availability, comprehension.
  rewrite lookup_union, foldl_insert_lookup, lookup_empty.
  rewrite lookup_singleton_ne by done.
  by destruct (last _).
Qed.

Lemma build_availability_name dev l s :
  build_availability dev l !! (inl s : key)
  = if decide (s = "Name") then Some (name dev) else None.
Proof.
  unfold build_availability, comprehension.
  rewrite lookup_union, foldl_insert_lookup_inl, lookup_empty.
  destruct (decide (s = "Name")) as [->|Hne].
  - by rewrite lookup_singleton_eq.
  - rewrite lookup_singleton_ne; [done|congruence].
Qed.

Lemma last_filter_is_Some {A} (P : A → Prop) `{∀ x, Decision (P x)}
    (l : list A) (a : A) :
  a ∈ l → P a → is_Some (last (filter P l)).
Proof.
  intros Hin HP.
  assert (Hf : a ∈ filter P l) by (by apply list_elem_of_filter).
  destruct (filter P l) as [|b l'] using rev_ind.
  - by apply elem_of_nil in Hf.
  - rewrite last_snoc. by eexists.
Qed.

(** C8. For every device whose request is answered with a decoded body
    that has an availability list: if the list is empty, the fetcher (of
    either script) returns None and prints one warning that names the
    device, without raising; otherwise it prints nothing and returns one
    record, which holds the device name under "Name" and, under every
    duration that occurs in the list, the percentage of the entry with that
    duration (of the last such entry, should a duration occur twice), and
    nothing else. *)
Theorem C8_fetch_record_or_absent LIBRENMS_URL net dev address l w :
  primary_ip4 dev = Some address →
  reply_of net (availability_url LIBRENMS_URL address) = Ok (Body (Some l)) →
  let asked := requests w ++ [availability_url LIBRENMS_URL address] in
  (l = [] →
     let w' :=
       World asked
             (console w ++ ["[red]" +:+ name dev +:+ " issue in LibreNMS"])
             (task_total w) (ticks w) (g_results w) in
     Sync.get_availability LIBRENMS_URL net dev w = (w', Ok None) ∧
     Async.await net (Async.get_availability LIBRENMS_URL dev) w
       = (w', Ok None)) ∧
  (l ≠ [] →
     ∃ d : dict,
       let w' := World asked (console w) (task_total w) (ticks w)
                       (g_results w) in
       Sync.get_availability LIBRENMS_URL net dev w = (w', Ok (Some d)) ∧
       Async.await net (Async.get_availability LIBRENMS_URL dev) w
         = (w', Ok (Some d)) ∧
       d !! (inl "Name" : key) = Some (name dev) ∧
       (∀ s, s ≠ "Name" → d !! (inl s : key) = None) ∧
       (∀ k, d !! (inr k : key)
             = availability_perc <$> last (filter (λ a, duration a = k) l)) ∧
       (∀ a, a ∈ l → is_Some (d !! (inr (duration a) : key)))).
Proof.
  intros Hip Hreply asked.
  assert (Hreq : fetch_requests LIBRENMS_URL dev
                 = [availability_url LIBRENMS_URL address])
    by (unfold fetch_requests; by rewrite Hip).
  split.
  - intros ->.
    assert (Hf : fetched LIBRENMS_URL net dev = Ok None)
      by (unfold fetched; by rewrite Hip, Hreply).
    rewrite sync_get_availability_run, async_get_availability_run.
    unfold fetch_output. by rewrite Hf, Hreq.
  - intros Hne. exists (build_availability dev l).
    assert (Hf : fetched LIBRENMS_URL net dev
                 = Ok (Some (build_availability dev l)))
      by (unfold fetched; rewrite Hip, Hreply; cbn; by destruct l).
    rewrite sync_get_availability_run, async_get_availability_run.
    unfold fetch_output. rewrite Hf, Hreq, app_nil_r.
    split; [done|]. split; [done|].
    split; [by rewrite build_availability_name|].
    split.
    { intros s Hs. rewrite build_availability_name.
      by destruct (decide (s = "Name")). }
    split; [apply build_availability_duration|].
    intros a Ha. rewrite build_availability_duration.
    apply fmap_is_Some. by eapply last_filter_is_Some.
Qed.

Lemma C8_fetch_record_or_absent_witness :
  primary_ip4 Lab.core1 = Some "10.0.0.1/24" ∧
  reply_of Lab.net (availability_url Lab.url "10.0.0.1/24")
    = Ok (Body (Some (Lab.windows "100.000000" "100.000000" "100.000000"
                                  "99.999000"))) ∧
  ∃ d : dict,
    Sync.get_availability Lab.url Lab.net Lab.core1 initial_world
      = (World [availability_url Lab.url "10.0.0.1/24"] [] None 0 None,
         Ok (Some d)) ∧
    d !! (inr YEAR : key) = Some "99.999000".
Proof.
  split; [reflexivity|]. split; [reflexivity|].
  destruct (C8_fetch_record_or_absent Lab.url Lab.net Lab.core1
              "10.0.0.1/24"
              (Lab.windows "100.000000" "100.000000" "100.000000" "99.999000")
              initial_world eq_refl eq_refl) as [_ Hrec].
  destruct Hrec as (d & Hs & _ & _ & _ & Hk & _); [discriminate|].
  exists d. split; [exact Hs|]. rewrite Hk. reflexivity.
Defined.

(** ** Claims about whole runs *)

(** C7. For the same inventory and the same answers of the monitoring
    server, whatever the latencies, the sequential script and the asyncio
    script produce the same report or both produce none; the two
    aggregation functions are the same function. *)
Theorem C7_sync_async_same_report {F : Type} `{PyFloat F}
    LIBRENMS_URL net inventory w :
  (∀ results,
     Sync.average_availability (F:=F) results
     = Async.average_availability results) ∧
  value_of (Sync.main (F:=F) LIBRENMS_URL net inventory w).2
  = value_of (Async.main (F:=F) LIBRENMS_URL net inventory w).2.
Proof.
  split; [done|].
  destruct inventory as [devs|e]; [|done].
  rewrite sync_main_run; cbn.
  destruct (fetch_all LIBRENMS_URL net devs) as [rs|e] eqn:E; cbn.
  - by rewrite (async_main_ok _ _ _ _ _ E).
  - destruct (async_main_raise (F:=F) _ _ _ _ w E) as (e' & dev & w' & -> & _).
    done.
Qed.

(** C1 as stated fails: with one unreachable device in front of a healthy
    one, either script ends in the ConnectionError and produces no report. *)
Lemma C1_counterexample :
  is_ok (fetched Lab.url Lab.net Lab.core1) = true ∧
  (Sync.main (F:=B64.float) Lab.url Lab.net (Ok [Lab.gone; Lab.core1])
             initial_world).2 = Raise ConnectionError ∧
  (Async.main (F:=B64.float) Lab.url Lab.net (Ok [Lab.gone; Lab.core1])
              initial_world).2 = Raise ConnectionError.
Proof. by vm_compute. Qed.

(** C1, amended. If the fetch of some device of the inventory raises
    (transport failure, undecodable body, missing key or address), the run
    of either script ends in an exception and produces no report: the
    sequential script re-raises the failure of the first failing device,
    having appended the results of the devices in front of it and ticked
    once for each of them; the asyncio script re-raises the failure of one
    of the failing devices. *)
Theorem C1_fetch_failure_aborts_run {F : Type} `{PyFloat F}
    LIBRENMS_URL net devs dev e w :
  dev ∈ devs →
  fetched LIBRENMS_URL net dev = Raise e →
  (∃ e1 w1,
     Sync.main (F:=F) LIBRENMS_URL net (Ok devs) w = (w1, Raise e1) ∧
     fetch_all LIBRENMS_URL net devs = Raise e1 ∧
     g_results w1 = Some (served_results LIBRENMS_URL net devs) ∧
     ticks w1 = length (served_results LIBRENMS_URL net devs) ∧
     (ticks w1 < length devs)%nat) ∧
  (∃ e2 w2 dev2,
     Async.main (F:=F) LIBRENMS_URL net (Ok devs) w = (w2, Raise e2) ∧
     dev2 ∈ devs ∧ fetched LIBRENMS_URL net dev2 = Raise e2).
Proof.
  intros Hin Hdev.
  destruct (fetch_all_some_failure _ _ _ _ _ Hin Hdev) as [e1 E].
  split.
  - exists e1. eexists. rewrite sync_main_run, E; cbn.
    split; [done|]. split; [done|]. split; [done|]. split; [done|].
    by apply fetch_all_raise in E as [_ ?].
  - destruct (async_main_raise (F:=F) _ _ _ _ w E)
      as (e2 & dev2 & w2 & ? & _ & ? & ?).
    by exists e2, w2, dev2.
Qed.

Lemma C1_fetch_failure_aborts_run_witness :
  Lab.gone ∈ [Lab.core1; Lab.gone; Lab.core2] ∧
  fetched Lab.url Lab.net Lab.gone = Raise ConnectionError ∧
  ∃ e1 w1,
    Sync.main (F:=B64.float) Lab.url Lab.net
              (Ok [Lab.core1; Lab.gone; Lab.core2]) initial_world
      = (w1, Raise e1) ∧
    ticks w1 = 1%nat.
Proof.
  assert (Hin : Lab.gone ∈ [Lab.core1; Lab.gone; Lab.core2])
    by (right; left).
  split; [exact Hin|]. split; [reflexivity|].
  destruct (C1_fetch_failure_aborts_run (F:=B64.float) Lab.url Lab.net
              [Lab.core1; Lab.gone; Lab.core2] Lab.gone ConnectionError
              initial_world Hin eq_refl)
    as [(e1 & w1 & Hrun & _ & _ & Hticks & _) _].
  exists e1, w1. split; [exact Hrun|]. rewrite Hticks. reflexivity.
Defined.

(** C3 as stated fails: a device whose fetch raises gets no tick from the
    sequential scheduler, and a device without samples gets none from the
    asyncio scheduler; in both runs one device leaves the counter at 0. *)
Lemma C3_counterexample :
  ticks (Sync.multi_proc "Requesting"
           (Sync.get_availability Lab.url Lab.net) [Lab.gone] Lab.ready).1
    ≠ length [Lab.gone] ∧
  ticks (Async.multi_async Lab.net "Requesting"
           (Async.get_availability Lab.url) [Lab.spare] Lab.ready).1
    ≠ length [Lab.spare].
Proof. by vm_compute. Qed.

(** C3, amended. Both schedulers set the total of the progress task to the
    device count.  The sequential scheduler advances once for every result
    it receives, a record or None alike: once per device when no fetch
    raises, and only for the devices in front of the first failing one
    otherwise.  The asyncio scheduler advances after all fetches have
    returned, once per device that returned a record and not for a device
    without samples; when a fetch raises it does not advance at all. *)
Theorem C3_progress_ticks LIBRENMS_URL net description devs w l0 :
  g_results w = Some l0 →
  let ws := (Sync.multi_proc description
               (Sync.get_availability LIBRENMS_URL net) devs w).1 in
  let wa := (Async.multi_async net description
               (Async.get_availability LIBRENMS_URL) devs w).1 in
  task_total ws = Some (length devs) ∧
  task_total wa = Some (length devs) ∧
  ticks ws = length (served_results LIBRENMS_URL net devs) ∧
  match fetch_all LIBRENMS_URL net devs with
  | Ok rs => ticks ws = length devs ∧ ticks wa = records rs
  | Raise _ => (ticks ws < length devs)%nat ∧ ticks wa = 0%nat
  end.
Proof.
  intros Hg ws wa. subst ws wa.
  rewrite (sync_multi_proc_run _ _ _ _ _ l0 Hg); cbn.
  destruct (fetch_all LIBRENMS_URL net devs) as [rs|e] eqn:E.
  - rewrite (async_multi_async_ok _ _ _ _ _ _ E); cbn.
    apply fetch_all_ok in E as (-> & _ & -> & _). done.
  - destruct (async_multi_async_raise _ _ description _ _ w E)
      as (lines & e' & dev & -> & _); cbn.
    by apply fetch_all_raise in E as [_ ?].
Qed.

Lemma C3_progress_ticks_witness :
  g_results Lab.ready = Some [] ∧
  ticks (Sync.multi_proc "Requesting"
           (Sync.get_availability Lab.url Lab.net)
           [Lab.core1; Lab.spare; Lab.core2] Lab.ready).1 = 3%nat.
Proof.
  split; [reflexivity|].
  destruct (C3_progress_ticks Lab.url Lab.net "Requesting"
              [Lab.core1; Lab.spare; Lab.core2] Lab.ready [] eq_refl)
    as (_ & _ & Hticks & _).
  rewrite Hticks. reflexivity.
Defined.

(** ** Aggregation *)

Section AggregationFacts.
Context {F : Type} `{PyFloat F}.

Lemma column_filter (k : Z) (results : list (option dict)) :
  column (F:=F) k (filter is_Some results) = column k results.
Proof.
  induction results as [|[d|] results IH]; [done| |].
  - rewrite filter_cons_True by done. cbn. by rewrite IH.
  - rewrite filter_cons_False by (by intros [? ?]). done.
Qed.

Lemma column_no_records (k : Z) (results : list (option dict)) :
  records results = 0%nat → column (F:=F) k results = Ok [].
Proof. induction results as [|[d|] results IH]; cbn; by auto. Qed.

Lemma column_raise (k : Z) (results : list (option dict)) e :
  column (F:=F) k results = Raise e →
  e = KeyError (inr k) ∨ ∃ s, e = ValueError s.
Proof.
  induction results as [|[d|] results IH]; cbn; [done| |done].
  destruct (d !! _) as [s|]; [|intros [= <-]; by left].
  destruct (float_of_str s); [|intros [= <-]; right; by eexists].
  destruct (column k results); cbn; [done|].
  intros [= <-]. by apply IH.
Qed.

Lemma column_lacking (k : Z) (results : list (option dict)) :
  Forall (λ r : option dict, ∀ d, r = Some d → d !! (inr k : key) = None)
         results →
  records results ≠ 0%nat →
  column (F:=F) k results = Raise (KeyError (inr k)).
Proof.
  induction 1 as [|[d|] results Hd _ IH]; cbn; [done| |done].
  intros _. by rewrite (Hd d eq_refl).
Qed.

Lemma column_complete (k : Z) (results : list (option dict)) :
  complete (F:=F) results → k ∈ standard_durations →
  column k results = Ok (window k results) ∧
  length (window (F:=F) k results) = records results.
Proof.
  intros Hc Hk. induction Hc as [|[d|] results Hd _ IH]; cbn; [done| |done].
  destruct (Hd d eq_refl k Hk) as (s & x & Hs & Hx).
  destruct IH as [IHcol IHlen].
  rewrite Hs, Hx, IHcol; cbn.
  unfold window in *; cbn. rewrite Hx; cbn.
  by rewrite IHlen.
Qed.

Lemma records_perm (results results' : list (option dict)) :
  results ≡ₚ results' → records results = records results'.
Proof.
  induction 1 as [|[d|]|[d|] [d'|]|]; cbn; congruence.
Qed.

Lemma mean_nonempty (xs : list F) :
  length xs ≠ 0%nat → mean xs = Ok (mean_of xs).
Proof.
  unfold mean, mean_of. destruct xs; [done|]. done.
Qed.

Lemma average_availability_filter (results : list (option dict)) :
  Sync.average_availability (F:=F) (filter is_Some results)
  = Sync.average_availability results.
Proof. unfold Sync.average_availability. by rewrite !column_filter. Qed.

End AggregationFacts.

(** C4 as stated fails: for a device without samples both schedulers hand
    on a None entry. *)
Lemma C4_counterexample :
  g_results (Sync.multi_proc "Requesting"
               (Sync.get_availability Lab.url Lab.net) [Lab.spare]
               Lab.ready).1 = Some [None] ∧
  (Async.multi_async Lab.net "Requesting"
     (Async.get_availability Lab.url) [Lab.spare] Lab.ready).2 = Ok [None].
Proof. by vm_compute. Qed.

(** C4, amended. When no fetch raises, the output of either scheduler has
    one entry per device, in the order of the inventory: the record of the
    device, or None for a device without samples.  The None entries are not
    removed by the scheduler; the aggregator skips them itself, so that it
    returns on a result list what it returns on the list without its None
    entries. *)
Theorem C4_results_keep_absent_entries {F : Type} `{PyFloat F}
    LIBRENMS_URL net description devs rs w l0 :
  g_results w = Some l0 →
  fetch_all LIBRENMS_URL net devs = Ok rs →
  g_results (Sync.multi_proc description
               (Sync.get_availability LIBRENMS_URL net) devs w).1
    = Some (l0 ++ rs) ∧
  (Async.multi_async net description
     (Async.get_availability LIBRENMS_URL) devs w).2 = Ok rs ∧
  Forall2 (λ dev r, fetched LIBRENMS_URL net dev = Ok r) devs rs ∧
  Sync.average_availability (F:=F) rs
    = Sync.average_availability (filter is_Some rs) ∧
  Async.average_availability (F:=F) rs
    = Async.average_availability (filter is_Some rs).
Proof.
  intros Hg E.
  rewrite (sync_multi_proc_run _ _ _ _ _ l0 Hg); cbn.
  rewrite (async_multi_async_ok _ _ _ _ _ _ E); cbn.
  pose proof (average_availability_filter (F:=F) rs) as Hf.
  apply fetch_all_ok in E as (-> & _ & _ & Hall).
  done.
Qed.

Lemma C4_results_keep_absent_entries_witness :
  g_results Lab.ready = Some [] ∧
  fetch_all Lab.url Lab.net [Lab.core1; Lab.spare]
    = Ok [Some Lab.full; None] ∧
  (Async.multi_async Lab.net "Requesting"
     (Async.get_availability Lab.url) [Lab.core1; Lab.spare] Lab.ready).2
    = Ok [Some Lab.full; None].
Proof.
  assert (E : fetch_all Lab.url Lab.net [Lab.core1; Lab.spare]
              = Ok [Some Lab.full; None]) by reflexivity.
  split; [reflexivity|]. split; [exact E|].
  exact (proj1 (proj2 (C4_results_keep_absent_entries (F:=B64.float)
                         Lab.url Lab.net "Requesting"
                         [Lab.core1; Lab.spare] [Some Lab.full; None]
                         Lab.ready [] eq_refl E))).
Defined.

(** C6 as stated fails for the empty inventory: the sequential script
    binds [results], lets the scheduler create the progress task for zero
    devices and calls the aggregator, and it is the aggregator's division
    that ends the run; the asyncio script does the same. *)
Lemma C6_counterexample :
  Sync.main (F:=B64.float) Lab.url Lab.net (Ok []) initial_world
    = (World [] [] (Some 0%nat) 0 (Some []),
       Sync.average_availability []) ∧
  Sync.average_availability (F:=B64.float) [] = Raise ZeroDivisionError ∧
  Async.main (F:=B64.float) Lab.url Lab.net (Ok []) initial_world
    = (World [] [] (Some 0%nat) 0 None, Async.average_availability []).
Proof. by vm_compute. Qed.

(** C6, amended. If the inventory query raises, either script ends in
    that exception with nothing else done: no request, no progress task, no
    output.  If the inventory is empty, no request is sent either, but the
    scheduler runs over the empty list and the aggregator is called on the
    empty result list; the run ends in the ZeroDivisionError that the
    aggregator raises. *)
Theorem C6_inventory_failure_or_empty {F : Type} `{PyFloat F}
    LIBRENMS_URL net e w :
  Sync.main (F:=F) LIBRENMS_URL net (Raise e) w = (w, Raise e) ∧
  Async.main (F:=F) LIBRENMS_URL net (Raise e) w = (w, Raise e) ∧
  Sync.main (F:=F) LIBRENMS_URL net (Ok []) w
    = (World (requests w) (console w) (Some 0%nat) 0 (Some []),
       Sync.average_availability []) ∧
  Async.main (F:=F) LIBRENMS_URL net (Ok []) w
    = (World (requests w) (console w) (Some 0%nat) 0 (g_results w),
       Async.average_availability []) ∧
  Sync.average_availability (F:=F) [] = Raise ZeroDivisionError ∧
  Async.average_availability (F:=F) [] = Raise ZeroDivisionError.
Proof.
  split; [done|]. split; [done|].
  split; [by rewrite sync_main_run; cbn; rewrite !app_nil_r|].
  split; [|done].
  unfold Async.main, Async.get_list_of_devices, lift.
  unfold mbind at 1, M_bind at 1.
  rewrite (bind_ok _ _ _ _ _
             (async_multi_async_ok LIBRENMS_URL net _ [] [] w eq_refl)).
  cbn. by rewrite !app_nil_r.
Qed.

(** C10 as stated fails: over an empty device list [multi_proc] returns
    without a NameError although no global [results] exists. *)
Lemma C10_counterexample :
  g_results initial_world = None ∧
  Sync.multi_proc "Requesting" (Sync.get_availability Lab.url Lab.net) []
                  initial_world
    = (World [] [] (Some 0%nat) 0 None, Ok ()).
Proof. by vm_compute. Qed.

(** C10, amended. [multi_proc] returns no value and works on the module
    global [results] only.  Where the global exists, every result that
    arrives is appended to it, None entries included: after the call the
    list is its old content followed by the results of the devices in
    front of the first failing one, which are the results of all devices
    when no fetch raises, and the call returns None then and re-raises the
    failure otherwise.  Where no global [results] exists, the call raises
    NameError when the first result arrives, that is when the device list
    is not empty and the fetch of its first device returns; over an empty
    list it returns None, and when the first fetch raises it re-raises
    that failure. *)
Theorem C10_multi_proc_side_effect LIBRENMS_URL net description devs w :
  let run := Sync.multi_proc description
               (Sync.get_availability LIBRENMS_URL net) devs w in
  match g_results w with
  | Some l0 =>
      g_results run.1 = Some (l0 ++ served_results LIBRENMS_URL net devs) ∧
      match fetch_all LIBRENMS_URL net devs with
      | Ok rs => run.2 = Ok () ∧ g_results run.1 = Some (l0 ++ rs)
      | Raise e => run.2 = Raise e
      end
  | None =>
      g_results run.1 = None ∧
      match devs with
      | [] => run.2 = Ok ()
      | dev :: _ =>
          match fetched LIBRENMS_URL net dev with
          | Ok _ => run.2 = Raise (NameError "results")
          | Raise e => run.2 = Raise e
          end
      end
  end.
Proof.
  intros run. subst run.
  destruct (g_results w) as [l0|] eqn:Hg.
  - rewrite (sync_multi_proc_run _ _ _ _ _ l0 Hg); cbn.
    split; [done|].
    destruct (fetch_all LIBRENMS_URL net devs) as [rs|e] eqn:E; [|done].
    apply fetch_all_ok in E as (-> & _). done.
  - unfold Sync.multi_proc, mbind, M_bind, add_task.
    destruct devs as [|dev devs]; [done|].
    destruct (fetched LIBRENMS_URL net dev) as [r|e] eqn:E.
    + by rewrite (sync_imap_loop_unbound _ _ _ _ _ r).
    + by rewrite (sync_imap_loop_first_raise _ _ _ _ _ e).
Qed.

(** C2 as stated fails: when no record has the day window, the aggregator
    returns nothing at all, neither a missing-value mark for the day nor
    the averages of the other three windows; it raises. *)
Lemma C2_counterexample :
  Lab.no_day !! (inr DAY : key) = None ∧
  is_Some (Lab.no_day !! (inr WEEK : key)) ∧
  Sync.average_availability (F:=B64.float) [Some Lab.no_day]
    = Raise (KeyError (inr DAY)) ∧
  Async.average_availability (F:=B64.float) [Some Lab.no_day]
    = Raise (KeyError (inr DAY)) ∧
  Sync.average_availability (F:=B64.float) [None]
    = Raise ZeroDivisionError.
Proof.
  split; [by vm_compute|]. split; [by eexists|]. by vm_compute.
Qed.

(** C2, amended. For every result list in which no record has the key of
    one of the four windows, the aggregator (the same in both scripts)
    raises and returns no average for any window: ZeroDivisionError when
    the list has no record at all, and otherwise the KeyError of a window
    that a record lacks or the ValueError of an unreadable percentage,
    whichever the comprehensions meet first. *)
Theorem C2_empty_window_raises {F : Type} `{PyFloat F}
    (results : list (option dict)) (k : Z) :
  k ∈ standard_durations →
  Forall (λ r : option dict, ∀ d, r = Some d → d !! (inr k : key) = None)
         results →
  Async.average_availability (F:=F) results
    = Sync.average_availability results ∧
  ∃ e, Sync.average_availability (F:=F) results = Raise e ∧
       if Nat.eqb (records results) 0 then e = ZeroDivisionError
       else (∃ k', k' ∈ standard_durations ∧ e = KeyError (inr k')) ∨
            (∃ s, e = ValueError s).
Proof.
  intros Hk Hlack. split; [done|].
  unfold Sync.average_availability.
  destruct (Nat.eqb (records results) 0) eqn:Hn.
  - apply Nat.eqb_eq in Hn. rewrite !column_no_records by done.
    by eexists.
  - apply Nat.eqb_neq in Hn.
    pose proof (column_lacking (F:=F) k results Hlack Hn) as Hcol.
    assert (Hkind : ∀ k' e, k' ∈ standard_durations →
              column (F:=F) k' results = Raise e →
              (∃ k'', k'' ∈ standard_durations ∧ e = KeyError (inr k'')) ∨
              (∃ s, e = ValueError s)).
    { intros k' e Hk' [->|Hv]%column_raise; [left; by exists k'|by right]. }
    assert (Hday : DAY ∈ standard_durations) by (by left).
    assert (Hweek : WEEK ∈ standard_durations) by (right; by left).
    assert (Hmonth : MONTH ∈ standard_durations) by (do 2 right; by left).
    assert (Hyear : YEAR ∈ standard_durations) by (do 3 right; by left).
    destruct (column DAY results) as [xd|ed] eqn:Ed; cbn;
      [|exists ed; split; [done|by apply (Hkind DAY)]].
    destruct (column WEEK results) as [xw|ew] eqn:Ew; cbn;
      [|exists ew; split; [done|by apply (Hkind WEEK)]].
    destruct (column MONTH results) as [xm|em] eqn:Em; cbn;
      [|exists em; split; [done|by apply (Hkind MONTH)]].
    destruct (column YEAR results) as [xy|ey] eqn:Ey; cbn;
      [|exists ey; split; [done|by apply (Hkind YEAR)]].
    exfalso.
    repeat (apply elem_of_cons in Hk as [->|Hk]; [congruence|]).
    by apply elem_of_nil in Hk.
Qed.

Lemma C2_empty_window_raises_witness :
  WEEK ∈ standard_durations ∧
  Forall (λ r : option dict, ∀ d, r = Some d → d !! (inr WEEK : key) = None)
         [None; None] ∧
  ∃ e, Sync.average_availability (F:=B64.float) [None; None] = Raise e ∧
       e = ZeroDivisionError.
Proof.
  assert (Hk : WEEK ∈ standard_durations) by (right; left).
  assert (Hl : Forall (λ r : option dict,
                         ∀ d, r = Some d → d !! (inr WEEK : key) = None)
                      [None; None])
    by (repeat constructor; discriminate).
  split; [exact Hk|]. split; [exact Hl|].
  destruct (C2_empty_window_raises (F:=B64.float) [None; None] WEEK Hk Hl)
    as [_ (e & He & Hkind)].
  exists e. split; [exact He|exact Hkind].
Defined.

(** C5 as stated fails on both counts.  A record without the day window
    is not skipped when the day average is taken: next to a record that
    has all four windows it makes the aggregator raise KeyError.  And the
    output is not invariant under permutation: with [sum] adding from the
    left (CPython up to 3.11), three records at 0.1, 0.2 and 0.3 per cent
    average to 7205759403792795 * 2^-55 in one order and to
    7205759403792793 * 2^-55 in the opposite one. *)
Lemma C5_counterexample :
  (Lab.full !! (inr DAY : key) = Some "100.000000" ∧
   Lab.no_day !! (inr DAY : key) = None ∧
   Sync.average_availability (F:=B64.float) [Some Lab.full; Some Lab.no_day]
     = Raise (KeyError (inr DAY))) ∧
  ([Some Bench.tenth; Some Bench.fifth; Some Bench.three_tenths]
     ≡ₚ [Some Bench.three_tenths; Some Bench.fifth; Some Bench.tenth] ∧
   day <$> value_of (Sync.average_availability (F:=B64.float)
                       [Some Bench.tenth; Some Bench.fifth;
                        Some Bench.three_tenths])
     = Some (S754_finite false 7205759403792795 (-55)) ∧
   day <$> value_of (Sync.average_availability (F:=B64.float)
                       [Some Bench.three_tenths; Some Bench.fifth;
                        Some Bench.tenth])
     = Some (S754_finite false 7205759403792793 (-55))).
Proof.
  split; [by vm_compute|]. split; [|by vm_compute].
  apply (Permutation_rev [_; _; _]).
Qed.

(** C5, amended. For every result list with at least one record in which
    every record has all four windows with readable percentages, the
    aggregator's output for each window is the sum of the window's values
    over all records divided by the number of records.  Reordering the
    results reorders the summands and keeps their number, so the outputs
    agree up to the rounding of the floating-point sum.  (A record that
    lacks a window is not skipped: it raises KeyError.) *)
Theorem C5_mean_over_records {F : Type} `{PyFloat F}
    (results results' : list (option dict)) :
  results ≡ₚ results' →
  complete (F:=F) results →
  records results ≠ 0%nat →
  Sync.average_availability (F:=F) results
    = Ok (Report (mean_of (window DAY results))
                 (mean_of (window WEEK results))
                 (mean_of (window MONTH results))
                 (mean_of (window YEAR results))) ∧
  Sync.average_availability (F:=F) results'
    = Ok (Report (mean_of (window DAY results'))
                 (mean_of (window WEEK results'))
                 (mean_of (window MONTH results'))
                 (mean_of (window YEAR results'))) ∧
  ∀ k, k ∈ standard_durations →
    window (F:=F) k results ≡ₚ window k results' ∧
    length (window (F:=F) k results) = records results ∧
    length (window (F:=F) k results') = records results.
Proof.
  intros Hperm Hc Hn.
  assert (Hc' : complete (F:=F) results').
  { unfold complete in *. by rewrite <- Hperm. }
  assert (Hn' : records results' = records results)
    by (symmetry; by apply records_perm).
  assert (Hrun : ∀ rs, complete (F:=F) rs → records rs ≠ 0%nat →
            Sync.average_availability (F:=F) rs
            = Ok (Report (mean_of (window DAY rs)) (mean_of (window WEEK rs))
                         (mean_of (window MONTH rs))
                         (mean_of (window YEAR rs)))).
  { intros rs Hrs Hrn. unfold Sync.average_availability.
    destruct (column_complete DAY rs Hrs) as [-> Ld]; [by left|].
    destruct (column_complete WEEK rs Hrs) as [-> Lw]; [right; by left|].
    destruct (column_complete MONTH rs Hrs) as [-> Lm];
      [do 2 right; by left|].
    destruct (column_complete YEAR rs Hrs) as [-> Ly];
      [do 3 right; by left|].
    cbn. rewrite !mean_nonempty by congruence. done. }
  split; [by apply Hrun|]. split; [apply Hrun; [done|congruence]|].
  intros k Hk. split; [|split].
  - unfold window. by rewrite Hperm.
  - by apply column_complete.
  - rewrite <- Hn'. by apply column_complete.
Qed.

Lemma C5_mean_over_records_witness :
  [Some Lab.full; None; Some Bench.second]
    ≡ₚ [Some Bench.second; Some Lab.full; None] ∧
  complete (F:=B64.float) [Some Lab.full; None; Some Bench.second] ∧
  records [Some Lab.full; None; Some Bench.second] ≠ 0%nat ∧
  Sync.average_availability (F:=B64.float)
    [Some Bench.second; Some Lab.full; None]
    = Ok (Report
            (mean_of (window DAY [Some Bench.second; Some Lab.full; None]))
            (mean_of (window WEEK [Some Bench.second; Some Lab.full; None]))
            (mean_of (window MONTH [Some Bench.second; Some Lab.full; None]))
            (mean_of (window YEAR [Some Bench.second; Some Lab.full; None])))
  ∧
  window (F:=B64.float) DAY [Some Lab.full; None; Some Bench.second]
    ≡ₚ window DAY [Some Bench.second; Some Lab.full; None] ∧
  length (window (F:=B64.float) DAY [Some Lab.full; None; Some Bench.second])
    = 2%nat.
Proof.
  assert (Hp : [Some Lab.full; None; Some Bench.second]
                 ≡ₚ [Some Bench.second; Some Lab.full; None]).
  { change [Some Lab.full; None; Some Bench.second]
      with ([Some Lab.full; None] ++ [Some Bench.second]).
    apply Permutation_app_comm. }
  assert (Hc : complete (F:=B64.float)
                 [Some Lab.full; None; Some Bench.second]).
  { constructor; [|constructor; [discriminate|constructor; [|constructor]]];
      intros d [= <-] k Hk;
      repeat (apply elem_of_cons in Hk as [->|Hk];
              [eexists _, _; split; reflexivity|]);
      by apply elem_of_nil in Hk. }
  assert (Hn : records [Some Lab.full; None; Some Bench.second] ≠ 0%nat)
    by discriminate.
  split; [exact Hp|]. split; [exact Hc|]. split; [exact Hn|].
  destruct (C5_mean_over_records (F:=B64.float) _ _ Hp Hc Hn)
    as (_ & Hrun & Hwin).
  split; [exact Hrun|].
  destruct (Hwin DAY ltac:(left)) as (Hperm & Hlen & _).
  split; [exact Hperm|exact Hlen].
Defined.

(** ** Reading a percentage *)

(** On these literals [B64.of_str] is the correctly rounded quotient of
    the integer the digits spell by the power of ten, as [SFdiv] of the
    standard library computes it. *)
Example of_str_is_rounded_quotient :
  B64.of_str "99.999000"
    = Some (B64.div (B64.of_int 99999000) (B64.of_int 1000000)) ∧
  B64.of_str "0.1" = Some (B64.div (B64.of_int 1) (B64.of_int 10)) ∧
  B64.of_str "0.000001"
    = Some (B64.div (B64.of_int 1) (B64.of_int 1000000)) ∧
  B64.of_str "100.000000" = Some (B64.of_int 100) ∧
  B64.of_str "1e2" = Some (B64.of_int 100) ∧ B64.of_str "." = None.
Proof. by vm_compute. Qed.

(** With this instance the order of the summands shows in the last bit:
    0.1, 0.2 and 0.3 per cent average to different doubles when they
    are read in the opposite order. *)
Example float_sum_order_matters :
  ∀ a b c,
    B64.of_str "0.100000" = Some a → B64.of_str "0.200000" = Some b →
    B64.of_str "0.300000" = Some c →
    mean_of (F:=B64.float) [a; b; c] ≠ mean_of (F:=B64.float) [c; b; a].
Proof.
  intros a b c Ha Hb Hc. vm_compute in Ha, Hb, Hc.
  injection Ha as <-. injection Hb as <-. injection Hc as <-.
  by vm_compute.
Qed.

(** The compensated [sum] of CPython 3.12 and later gives the same
    double for both orders of these three summands. *)
Example compensated_sum_hides_this_order :
  ∀ a b c,
    B64.of_str "0.100000" = Some a → B64.of_str "0.200000" = Some b →
    B64.of_str "0.300000" = Some c →
    B64.sum [a; b; c] ≠ B64.sum [c; b; a] ∧
    B64.sum_compensated [a; b; c] = B64.sum_compensated [c; b; a].
Proof.
  intros a b c Ha Hb Hc. vm_compute in Ha, Hb, Hc.
  injection Ha as <-. injection Hb as <-. injection Hc as <-.
  by vm_compute.
Qed.

(** Beside plain decimals [B64.of_str] reads what else [float] reads:
    blanks around the numeral, single underscores between digits, an
    exponent, and the spellings of infinity and not-a-number. *)
Example of_str_other_spellings :
  B64.of_str " 99.5" = B64.of_str "99.5" ∧
  B64.of_str "9_9.5" = B64.of_str "99.5" ∧
  B64.of_str "995e-1" = B64.of_str "99.5" ∧
  B64.of_str "+99.5" = B64.of_str "99.5" ∧
  B64.of_str "-Infinity" = Some (S754_infinity true) ∧
  B64.of_str "inf" = Some (S754_infinity false) ∧
  B64.of_str "NaN" = Some S754_nan ∧
  B64.of_str "1e400" = Some (S754_infinity false) ∧
  B64.of_str "9__9" = None ∧ B64.of_str "99_" = None ∧
  B64.of_str "1e" = None ∧ B64.of_str "9 9" = None ∧
  B64.of_str "" = None.
Proof. by vm_compute. Qed.

Lemma round_half_even_error num den :
  0 < den → 0 ≤ num →
  num / den ≤ B64.round_half_even num den ≤ num / den + 1 ∧
  Z.abs (B64.round_half_even num den * den - num) * 2 ≤ den.
Proof.
  intros Hden Hnum. unfold B64.round_half_even.
  pose proof (Z.div_mod num den ltac:(lia)) as Hdm.
  pose proof (Z.mod_pos_bound num den Hden) as Hr.
  set (q := num / den) in *. set (r := num mod den) in *.
  destruct (Z.ltb_spec (2 * r) den); [split; [lia|nia]|].
  destruct (Z.ltb_spec den (2 * r)); [split; [lia|nia]|].
  destruct (Z.even q); split; try lia; nia.
Qed.

Lemma exponent_of_bounded n d :
  0 < n → 0 < d → n ≤ 100 * d → d ≤ n * 2 ^ 1000 →
  ∃ k, B64.exponent_of n d = - k ∧ 46 ≤ k ≤ 1053 ∧
       d * 2 ^ 52 ≤ n * 2 ^ k < d * 2 ^ 53.
Proof.
  intros Hn Hd Hle Hge. unfold B64.exponent_of.
  pose proof (Z.log2_spec n Hn) as [Ha1 Ha2].
  pose proof (Z.log2_spec d Hd) as [Hb1 Hb2].
  pose proof (Z.log2_nonneg n) as Ha0.
  pose proof (Z.log2_nonneg d) as Hb0.
  set (a := Z.log2 n) in *. set (b := Z.log2 d) in *.
  replace (Z.succ a) with (a + 1) in Ha2 by lia.
  replace (Z.succ b) with (b + 1) in Hb2 by lia.
  rewrite Z.pow_add_r in Ha2, Hb2 by lia.
  change (2 ^ 1) with 2 in Ha2, Hb2.
  assert (Hpa : 0 < 2 ^ a) by (apply Z.pow_pos_nonneg; lia).
  assert (Hpb : 0 < 2 ^ b) by (apply Z.pow_pos_nonneg; lia).
  assert (Hab : a ≤ b + 7).
  { apply Z.lt_succ_r. apply (Z.pow_lt_mono_r_iff 2); [lia|lia|].
    replace (Z.succ (b + 7)) with (b + 8) by lia.
    rewrite Z.pow_add_r by lia. change (2 ^ 8) with 256. lia. }
  assert (Hba : b ≤ a + 1000).
  { apply Z.lt_succ_r. apply (Z.pow_lt_mono_r_iff 2); [lia|lia|].
    replace (Z.succ (a + 1000)) with (a + 1 + 1000) by lia.
    rewrite !Z.pow_add_r by lia. change (2 ^ 1) with 2.
    assert (0 < 2 ^ 1000) by (apply Z.pow_pos_nonneg; lia). nia. }
  destruct (Z.leb_spec 0 (a - b - 52)); [lia|].
  set (j := - (a - b - 52)).
  assert (Hj : 45 ≤ j ≤ 1052) by lia.
  assert (Hpj : 0 < 2 ^ j) by (apply Z.pow_pos_nonneg; lia).
  assert (H52 : 0 < 2 ^ 52) by (apply Z.pow_pos_nonneg; lia).
  assert (Hpow : 2 ^ a * 2 ^ j = 2 ^ b * 2 ^ 52).
  { rewrite <- !Z.pow_add_r by lia. f_equal. lia. }
  change (2 ^ 53) with (2 * 2 ^ 52).
  destruct (Z.ltb_spec (n * 2 ^ j / d) (2 ^ 52)) as [Hq|Hq].
  - exists (j + 1). split; [lia|]. split; [lia|].
    rewrite Z.pow_add_r by lia. change (2 ^ 1) with 2.
    assert (n * 2 ^ j < d * 2 ^ 52).
    { pose proof (Z.mul_succ_div_gt (n * 2 ^ j) d Hd). nia. }
    split; nia.
  - assert (Hm : d * 2 ^ 52 ≤ n * 2 ^ j).
    { pose proof (Z.mul_div_le (n * 2 ^ j) d Hd). nia. }
    exists j. split; [lia|]. split; [|split; [done|nia]].
    destruct (Z.eq_dec j 45) as [->|]; [|lia].
    exfalso. change (2 ^ 52) with (128 * 2 ^ 45) in Hm. nia.
Qed.

Lemma digits2_pos_size p : digits2_pos p = Pos.size p.
Proof. induction p; cbn; congruence. Qed.

Lemma digits2_53 m :
  2 ^ 52 ≤ Z.pos m < 2 ^ 53 → Z.pos (digits2_pos m) = 53.
Proof.
  intros [Hlo Hhi]. rewrite digits2_pos_size.
  pose proof (Pos.size_gt m) as Hgt.
  pose proof (Pos.size_le m) as Hle.
  apply Pos2Z.pos_lt_pos in Hgt. apply Pos2Z.pos_le_pos in Hle.
  rewrite Pos2Z.inj_pow in Hgt, Hle.
  change (Z.pos m~0) with (2 * Z.pos m) in Hle.
  set (s := Z.pos (Pos.size m)) in *.
  assert (0 < s) by (unfold s; lia).
  assert (52 < s) by (apply (Z.pow_lt_mono_r_iff 2); lia).
  assert (s < 54).
  { apply (Z.pow_lt_mono_r_iff 2); [lia|lia|].
    change (2 ^ 54) with (2 * 2 ^ 53). lia. }
  lia.
Qed.

(** A 53-bit mantissa at an exponent in range is a double. *)
Lemma normal_is_valid m e :
  2 ^ 52 ≤ Z.pos m < 2 ^ 53 → -1074 ≤ e ≤ 971 →
  valid_binary B64.prec B64.emax (S754_finite false m e) = true.
Proof.
  intros Hm He. unfold valid_binary, bounded, canonical_mantissa, fexp, emin.
  rewrite (digits2_53 m Hm). unfold B64.prec, B64.emax.
  apply andb_true_iff. split; [apply Z.eqb_eq|apply Z.leb_le]; lia.
Qed.

(** For [n / d] between 2^-1000 and 100, [B64.nearest] is a double within
    2^-47 of [n / d]. *)
Lemma nearest_bounded n d :
  0 < n → 0 < d → n ≤ 100 * d → d ≤ n * 2 ^ 1000 →
  valid_binary B64.prec B64.emax (B64.nearest false n d) = true ∧
  ∃ num den,
    B64.value (B64.nearest false n d) = Some (num, den) ∧ 0 < den ∧
    Z.abs (num * d - n * den) * 2 ^ 47 ≤ den * d.
Proof.
  intros Hn Hd Hle Hge. unfold B64.nearest.
  destruct (Z.eqb_spec n 0); [lia|].
  destruct (exponent_of_bounded n d Hn Hd Hle Hge)
    as (k & -> & Hk & Hlow & Hhigh).
  unfold B64.scaled. destruct (Z.leb_spec 0 (- k)); [lia|].
  rewrite Z.opp_involutive.
  assert (Hpk : 0 < 2 ^ k) by (apply Z.pow_pos_nonneg; lia).
  destruct (round_half_even_error (n * 2 ^ k) d Hd ltac:(nia)) as [Hm Herr].
  assert (Hq : 2 ^ 52 ≤ n * 2 ^ k / d < 2 ^ 53).
  { split; [apply Z.div_le_lower_bound|apply Z.div_lt_upper_bound]; lia. }
  set (m := B64.round_half_even (n * 2 ^ k) d) in *.
  assert (H52 : 0 < 2 ^ 52) by (apply Z.pow_pos_nonneg; lia).
  assert (Hk46 : 2 ^ 46 ≤ 2 ^ k) by (apply Z.pow_le_mono_r; lia).
  destruct (Z.eqb_spec m (2 ^ 53)) as [Em|Em].
  - destruct (Z.eqb_spec (2 ^ 52) 0); [lia|].
    destruct (Z.ltb_spec 971 (- k + 1)); [lia|].
    split.
    { apply normal_is_valid; [|lia]. rewrite Z2Pos.id by lia.
      change (2 ^ 53) with (2 * 2 ^ 52). lia. }
    cbn [B64.value]. rewrite Z2Pos.id by lia.
    destruct (Z.leb_spec 0 (- k + 1)); [lia|].
    exists (2 ^ 52), (2 ^ (- (- k + 1))).
    replace (- (- k + 1)) with (k - 1) by lia.
    assert (Hpk1 : 2 ^ k = 2 * 2 ^ (k - 1)).
    { rewrite <- Z.pow_succ_r by lia. f_equal. lia. }
    split; [done|]. split; [lia|].
    rewrite Em in Herr. change (2 ^ 53) with (2 * 2 ^ 52) in Herr.
    change (2 ^ 47) with (4 * 2 ^ 45).
    change (2 ^ 46) with (2 * 2 ^ 45) in Hk46.
    set (P := 2 ^ (k - 1)) in *. set (X := 2 ^ 52 * d - n * P).
    replace (2 * 2 ^ 52 * d - n * (2 * P)) with (2 * X) in Herr
      by (unfold X; lia).
    assert (Z.abs X * 4 ≤ d) by lia.
    assert (0 < 2 ^ 45) by (apply Z.pow_pos_nonneg; lia). nia.
  - destruct (Z.eqb_spec m 0); [lia|].
    destruct (Z.ltb_spec 971 (- k)); [lia|].
    split.
    { apply normal_is_valid; [|lia]. rewrite Z2Pos.id by lia. lia. }
    cbn [B64.value]. rewrite Z2Pos.id by lia.
    destruct (Z.leb_spec 0 (- k)); [lia|].
    rewrite Z.opp_involutive.
    exists m, (2 ^ k). split; [done|]. split; [lia|].
    change (2 ^ 47) with (2 * 2 ^ 46).
    assert (0 < 2 ^ 46) by (apply Z.pow_pos_nonneg; lia). nia.
Qed.

(** C9 as stated fails: the number the aggregator computes with for the
    year percentage '99.999000' of the sample response is the double
    7036804049022222 * 2^-46, which is not the decimal 99.999. *)
Lemma C9_counterexample :
  Lab.full !! (inr YEAR : key) = Some "99.999000" ∧
  B64.parse_decimal "99.999000" = Some (false, 99999000, 6%nat) ∧
  column (F:=B64.float) YEAR [Some Lab.full]
    = Ok [S754_finite false 7036804049022222 (-46)] ∧
  B64.value (S754_finite false 7036804049022222 (-46))
    = Some (7036804049022222, 2 ^ 46) ∧
  7036804049022222 * 10 ^ 6 ≠ 99999000 * 2 ^ 46.
Proof. by vm_compute. Qed.

(** C9, amended. For every response entry that the record keeps, the
    percentage string reaches the aggregator unchanged.  When it is a
    plain decimal literal between 0 and 100, [float] turns it there into
    a finite double that differs from the decimal value by at most 2^-47,
    far less than half a unit of the sixth decimal; it is the aggregator
    that computes with doubles, which in general are not the decimal
    values themselves. *)
Theorem C9_percentage_nearest_double dev l a n decimals :
  last (filter (λ b, duration b = duration a) l) = Some a →
  B64.parse_decimal (availability_perc a) = Some (false, n, decimals) →
  (decimals ≤ 300)%nat →
  0 ≤ n ≤ 100 * 10 ^ Z.of_nat decimals →
  build_availability dev l !! (inr (duration a) : key)
    = Some (availability_perc a) ∧
  ∃ x num den,
    column (F:=B64.float) (duration a) [Some (build_availability dev l)]
      = Ok [x] ∧
    valid_binary B64.prec B64.emax x = true ∧
    B64.value x = Some (num, den) ∧ 0 < den ∧
    Z.abs (num * 10 ^ Z.of_nat decimals - n * den) * 2 ^ 47
      ≤ den * 10 ^ Z.of_nat decimals.
Proof.
  intros Hlast Hparse Hdec Hn.
  assert (Hkey : build_availability dev l !! (inr (duration a) : key)
                 = Some (availability_perc a))
    by (by rewrite build_availability_duration, Hlast).
  split; [done|].
  cbn [column]. rewrite Hkey.
  change (float_of_str (availability_perc a))
    with (B64.of_str (availability_perc a)).
  unfold B64.of_str. rewrite Hparse. cbn [res_bind].
  set (d := 10 ^ Z.of_nat decimals) in *.
  assert (Hd : 0 < d) by (apply Z.pow_pos_nonneg; lia).
  destruct (Z.eq_dec n 0) as [->|Hn0].
  - exists (S754_zero false), 0, 1. cbn.
    split; [done|]. split; [done|]. split; [done|]. lia.
  - assert (Hd300 : d ≤ 2 ^ 1000).
    { transitivity (10 ^ 300); [apply Z.pow_le_mono_r; lia|].
      by vm_compute. }
    assert (0 < 2 ^ 1000) by (apply Z.pow_pos_nonneg; lia).
    destruct (nearest_bounded n d ltac:(lia) Hd ltac:(lia) ltac:(nia))
      as (Hvalid & num & den & Hv & Hden & Herr).
    by exists (B64.nearest false n d), num, den.
Qed.

Lemma C9_percentage_nearest_double_witness :
  last (filter (λ b, duration b = YEAR)
               (Lab.windows "100.000000" "100.000000" "100.000000"
                            "99.999000"))
    = Some (Entry "99.999000" YEAR) ∧
  B64.parse_decimal "99.999000" = Some (false, 99999000, 6%nat) ∧
  (6 ≤ 300)%nat ∧
  0 ≤ 99999000 ≤ 100 * 10 ^ Z.of_nat 6 ∧
  Lab.full !! (inr YEAR : key) = Some "99.999000".
Proof.
  assert (Hl : last (filter (λ b, duration b = YEAR)
                 (Lab.windows "100.000000" "100.000000" "100.000000"
                              "99.999000"))
               = Some (Entry "99.999000" YEAR)) by reflexivity.
  assert (Hp : B64.parse_decimal "99.999000"
               = Some (false, 99999000, 6%nat)) by reflexivity.
  assert (Hd : (6 ≤ 300)%nat) by lia.
  assert (Hn : 0 ≤ 99999000 ≤ 100 * 10 ^ Z.of_nat 6)
    by (split; discriminate).
  split; [exact Hl|]. split; [exact Hp|]. split; [exact Hd|].
  split; [exact Hn|].
  exact (proj1 (C9_percentage_nearest_double Lab.core1 _
                  (Entry "99.999000" YEAR) 99999000 6%nat Hl Hp Hd Hn)).
Defined.

(** * Further properties of the two scripts *)

(** ** The address of a device *)

Lemma before_slash_app_slash (ip rest : string) :
  (∀ c, In c (list_ascii_of_string ip) → c ≠ "/"%char) →
  before_slash (ip +:+ "/" +:+ rest) = ip.
Proof.
  induction ip as [|c ip IH]; intros Hno; [done|].
  change (String c ip +:+ "/" +:+ rest) with (String c (ip +:+ "/" +:+ rest)).
  cbn [before_slash].
  destruct (Ascii.eqb_spec c "/") as [->|_].
  - exfalso. by apply (Hno "/"%char); [left|].
  - f_equal. apply IH. intros c' Hc'. apply Hno. by right.
Qed.

Lemma before_slash_no_slash (ip : string) :
  (∀ c, In c (list_ascii_of_string ip) → c ≠ "/"%char) →
  before_slash ip = ip.
Proof.
  induction ip as [|c ip IH]; intros Hno; [done|]. cbn.
  destruct (Ascii.eqb_spec c "/") as [->|_].
  - exfalso. by apply (Hno "/"%char); [left|].
  - f_equal. apply IH. intros c' Hc'. apply Hno. by right.
Qed.

(** X1. The prefix length of an address in CIDR form does not reach the
    URL: for an address [ip/rest] whose [ip] has no slash, the URL asked
    for is [LIBRENMS_URL + ip + "/availability"], the same as for the bare
    [ip]. *)
Theorem X1_cidr_suffix_is_stripped (LIBRENMS_URL ip rest : string) :
  (∀ c, In c (list_ascii_of_string ip) → c ≠ "/"%char) →
  availability_url LIBRENMS_URL (ip +:+ "/" +:+ rest)
    = LIBRENMS_URL +:+ ip +:+ "/availability" ∧
  availability_url LIBRENMS_URL ip
    = LIBRENMS_URL +:+ ip +:+ "/availability".
Proof.
  intros Hno. unfold availability_url.
  by rewrite before_slash_app_slash, before_slash_no_slash.
Qed.

Lemma X1_cidr_suffix_is_stripped_witness :
  (∀ c, In c (list_ascii_of_string "10.0.0.1") → c ≠ "/"%char) ∧
  availability_url Lab.url ("10.0.0.1" +:+ "/" +:+ "24")
    = Lab.url +:+ "10.0.0.1" +:+ "/availability".
Proof.
  assert (Hno : ∀ c, In c (list_ascii_of_string "10.0.0.1") → c ≠ "/"%char).
  { intros c Hc. cbn in Hc.
    repeat (destruct Hc as [<-|Hc]; [discriminate|]). destruct Hc. }
  split; [exact Hno|].
  exact (proj1 (X1_cidr_suffix_is_stripped Lab.url "10.0.0.1" "24" Hno)).
Defined.

(** X2. Whatever the address is, the host part that goes into the URL
    has no slash in it and is an initial part of the address. *)
Theorem X2_host_part_has_no_slash (address : string) :
  (∀ c, In c (list_ascii_of_string (before_slash address)) → c ≠ "/"%char) ∧
  String.prefix (before_slash address) address = true.
Proof.
  induction address as [|c address [IHno IHpre]]; cbn; [by split|].
  destruct (Ascii.eqb_spec c "/") as [->|Hc]; cbn; [by split|].
  split.
  - intros c' [<-|Hc']; [done|by apply IHno].
  - by destruct (ascii_dec c c).
Qed.

(** ** One fetch *)

(** X3. For a device without address, and for a device whose request
    is answered with a decoded JSON object, with an availability list of
    entries or without the key, the two fetchers do the same from every
    world: they send the same request, print the same line and end in the
    same record, None, TypeError or KeyError ([len(..) == 0] in one test,
    [not ..] in the other).  Requests that end in a failure of the
    transport or of the decoder, where the two HTTP clients differ, are
    left out. *)
Theorem X3_fetchers_agree LIBRENMS_URL net dev w :
  primary_ip4 dev = None ∨
  (∃ address data,
     primary_ip4 dev = Some address ∧
     reply_of net (availability_url LIBRENMS_URL address) = Ok data) →
  Sync.get_availability LIBRENMS_URL net dev w
  = Async.await net (Async.get_availability LIBRENMS_URL dev) w.
Proof.
  intros _. by rewrite sync_get_availability_run, async_get_availability_run.
Qed.

Lemma X3_fetchers_agree_witness :
  (primary_ip4 Lab.spare = None ∨
   ∃ address data,
     primary_ip4 Lab.spare = Some address ∧
     reply_of Lab.net (availability_url Lab.url address) = Ok data) ∧
  Async.await Lab.net (Async.get_availability Lab.url Lab.spare)
              initial_world
  = (World [availability_url Lab.url "10.0.0.3/24"]
           ["[red]spare issue in LibreNMS"] None 0 None, Ok None).
Proof.
  assert (H : primary_ip4 Lab.spare = None ∨
              ∃ address data,
                primary_ip4 Lab.spare = Some address ∧
                reply_of Lab.net (availability_url Lab.url address) = Ok data).
  { right. exists "10.0.0.3/24", (Body (Some [])). split; reflexivity. }
  split; [exact H|].
  rewrite <- (X3_fetchers_agree Lab.url Lab.net Lab.spare initial_world H).
  reflexivity.
Defined.

(** X4. A fetch prints its warning exactly when it returns None; it sends
    one request when the device has an address and none otherwise; and it
    leaves the progress task, the tick count and the global [results]
    alone. *)
Theorem X4_fetch_effects LIBRENMS_URL net dev w :
  let run := Sync.get_availability LIBRENMS_URL net dev w in
  (run.2 = Ok None ↔
     console run.1
       = console w ++ ["[red]" +:+ name dev +:+ " issue in LibreNMS"]) ∧
  (run.2 ≠ Ok None ↔ console run.1 = console w) ∧
  requests run.1
    = requests w ++ option_list (availability_url LIBRENMS_URL
                                   <$> primary_ip4 dev) ∧
  task_total run.1 = task_total w ∧ ticks run.1 = ticks w ∧
  g_results run.1 = g_results w.
Proof.
  intros run. subst run. rewrite sync_get_availability_run; cbn.
  unfold fetch_output, fetch_requests.
  assert (Hnil : ∀ (l : list string) x, l ≠ l ++ [x]).
  { intros l x Hl. apply (f_equal length) in Hl.
    rewrite length_app in Hl; cbn in Hl. lia. }
  split; [|split; [|split; [by destruct (primary_ip4 dev)|done]]].
  - destruct (fetched LIBRENMS_URL net dev) as [[d|]|e]; split;
      try done; rewrite app_nil_r; intros Hc; by apply Hnil in Hc.
  - destruct (fetched LIBRENMS_URL net dev) as [[d|]|e]; split;
      rewrite ?app_nil_r; try done.
    intros Hc. symmetry in Hc. by apply Hnil in Hc.
Qed.

(** X5. The exceptions of a fetch.  For a device without address it
    raises TypeError and has sent nothing.  When the request ends in an
    exception, of the transport or of the JSON decoder, the fetch ends in
    that exception; when the decoded body has no availability key, it ends
    in KeyError('availability').  In these two cases the one request has
    been sent.  In none of the three cases is a warning printed or None
    returned. *)
Theorem X5_fetch_exceptions LIBRENMS_URL net dev w :
  let run := Sync.get_availability LIBRENMS_URL net dev w in
  match primary_ip4 dev with
  | None => run = (w, Raise TypeError)
  | Some address =>
      let sent :=
        World (requests w ++ [availability_url LIBRENMS_URL address])
              (console w) (task_total w) (ticks w) (g_results w) in
      match reply_of net (availability_url LIBRENMS_URL address) with
      | Raise e => run = (sent, Raise e)
      | Ok (Body None) => run = (sent, Raise (KeyError (inl "availability")))
      | Ok (Body (Some _)) => True
      end
  end.
Proof.
  intros run. subst run. rewrite sync_get_availability_run.
  unfold fetch_output, fetch_requests, fetched.
  destruct (primary_ip4 dev) as [a|]; cbn.
  - destruct (reply_of net _) as [[[l|]]|e]; cbn; by rewrite ?app_nil_r.
  - by rewrite !app_nil_r, world_eta.
Qed.

(** ** The record of a device, continued *)

Lemma filter_duration_short (l : list entry) (k : Z) :
  NoDup (duration <$> l) →
  (length (filter (λ a, duration a = k) l) ≤ 1)%nat.
Proof.
  induction l as [|a l IH]; intros Hnd; [cbn; lia|].
  rewrite fmap_cons in Hnd. apply NoDup_cons in Hnd as [Hnotin Hnd].
  rewrite filter_cons. destruct (decide (duration a = k)) as [<-|Hne].
  - assert (Hnone : filter (λ b, duration b = duration a) l = []).
    { destruct (filter _ l) as [|b l'] eqn:Ef; [done|].
      assert (Hb : b ∈ filter (λ b, duration b = duration a) l)
        by (rewrite Ef; left).
      apply list_elem_of_filter in Hb as [Hb1 Hb2].
      exfalso. apply Hnotin. rewrite <- Hb1. by apply list_elem_of_fmap_2. }
    rewrite Hnone. cbn. lia.
  - by apply IH.
Qed.

Lemma short_perm_eq {A} (l l' : list A) :
  l ≡ₚ l' → (length l ≤ 1)%nat → l = l'.
Proof.
  intros Hp Hlen. destruct l as [|x [|y l]]; cbn in Hlen; [| |lia].
  - by apply Permutation_nil_l in Hp.
  - by apply Permutation_singleton_l in Hp.
Qed.

(** X6. When the durations of the response entries are distinct, the
    record does not depend on the order in which the response lists
    them. *)
Theorem X6_record_ignores_entry_order dev (l l' : list entry) :
  l ≡ₚ l' → NoDup (duration <$> l) →
  build_availability dev l = build_availability dev l'.
Proof.
  intros Hp Hnd. apply map_eq. intros [s|k].
  - by rewrite !build_availability_name.
  - rewrite !build_availability_duration.
    assert (Hf : filter (λ a, duration a = k) l
                 = filter (λ a, duration a = k) l').
    { apply short_perm_eq; [by rewrite Hp|by apply filter_duration_short]. }
    by rewrite Hf.
Qed.

Lemma X6_record_ignores_entry_order_witness :
  [Entry "99.500000" WEEK; Entry "98.000000" MONTH]
    ≡ₚ [Entry "98.000000" MONTH; Entry "99.500000" WEEK] ∧
  NoDup (duration <$> [Entry "99.500000" WEEK; Entry "98.000000" MONTH]) ∧
  build_availability Lab.core2
    [Entry "99.500000" WEEK; Entry "98.000000" MONTH]
  = build_availability Lab.core2
      [Entry "98.000000" MONTH; Entry "99.500000" WEEK].
Proof.
  assert (Hp : [Entry "99.500000" WEEK; Entry "98.000000" MONTH]
                 ≡ₚ [Entry "98.000000" MONTH; Entry "99.500000" WEEK])
    by apply Permutation_swap.
  assert (Hn : NoDup (duration <$>
                        [Entry "99.500000" WEEK; Entry "98.000000" MONTH]))
    by (apply (bool_decide_unpack _); vm_compute; exact I).
  split; [exact Hp|]. split; [exact Hn|].
  exact (X6_record_ignores_entry_order Lab.core2 _ _ Hp Hn).
Defined.

Lemma foldl_insert_size (l : list entry) (d : dict) :
  NoDup (duration <$> l) →
  (∀ a, a ∈ l → d !! (inr (duration a) : key) = None) →
  size (foldl (λ (d : dict) avail,
                 <[inr (duration avail) := availability_perc avail]> d) d l)
  = (size d + length l)%nat.
Proof.
  revert d. induction l as [|a l IH]; intros d Hnd Hfresh; cbn; [lia|].
  rewrite fmap_cons in Hnd. apply NoDup_cons in Hnd as [Hnotin Hnd].
  rewrite IH; [| done |].
  - rewrite map_size_insert_None by (apply Hfresh; left). lia.
  - intros b Hb. rewrite lookup_insert_ne; [apply Hfresh; by right|].
    intros [= Heq]. apply Hnotin. rewrite Heq. by apply list_elem_of_fmap_2.
Qed.

(** X7. When the durations of the response entries are distinct, the
    record gives back the percentage of every entry under its duration,
    and it has exactly one key per entry besides "Name". *)
Theorem X7_record_keeps_every_entry dev (l : list entry) :
  NoDup (duration <$> l) →
  (∀ a, a ∈ l →
     build_availability dev l !! (inr (duration a) : key)
     = Some (availability_perc a)) ∧
  size (build_availability dev l) = S (length l).
Proof.
  intros Hnd. split.
  - intros a Ha. rewrite build_availability_duration.
    pose proof (filter_duration_short l (duration a) Hnd) as Hlen.
    assert (Hin : a ∈ filter (λ b, duration b = duration a) l)
      by (by apply list_elem_of_filter).
    destruct (filter _ l) as [|b [|c l']]; cbn in Hlen; [|
      | lia].
    + by apply elem_of_nil in Hin.
    + by apply list_elem_of_singleton in Hin as ->.
  - unfold build_availability, comprehension.
    rewrite map_size_disj_union.
    + rewrite map_size_singleton, foldl_insert_size; [|done|done].
      rewrite map_size_empty. lia.
    + apply map_disjoint_singleton_r. by rewrite foldl_insert_lookup_inl.
Qed.

Lemma X7_record_keeps_every_entry_witness :
  NoDup (duration <$> Lab.windows "100.000000" "100.000000" "100.000000"
                                  "99.999000") ∧
  size Lab.full = 5%nat.
Proof.
  assert (Hn : NoDup (duration <$> Lab.windows "100.000000" "100.000000"
                                               "100.000000" "99.999000"))
    by (apply (bool_decide_unpack _); vm_compute; exact I).
  split; [exact Hn|].
  exact (proj2 (X7_record_keeps_every_entry Lab.core1 _ Hn)).
Defined.

(** ** The schedulers, continued *)

Section SchedulerMore.
Variable LIBRENMS_URL : string.
Variable net : network.

Local Abbreviation fetched := (fetched LIBRENMS_URL net).
Local Abbreviation fetch_requests := (fetch_requests LIBRENMS_URL).
Local Abbreviation fetch_output := (fetch_output LIBRENMS_URL net).
Local Abbreviation pending_of := (pending_of LIBRENMS_URL net).
Local Abbreviation fetch_all := (fetch_all LIBRENMS_URL net).
Local Abbreviation served_results := (served_results LIBRENMS_URL net).
Local Abbreviation attempted := (attempted LIBRENMS_URL net).
Local Abbreviation is_absent := (is_absent LIBRENMS_URL net).
Local Abbreviation url_of := (url_of LIBRENMS_URL).

Lemma requests_of_devices devs :
  concat (map fetch_requests devs) = omap url_of devs.
Proof.
  induction devs as [|dev devs IH]; [done|]. cbn. rewrite IH.
  unfold fetch_requests, url_of. by destruct (primary_ip4 dev).
Qed.

Lemma output_of_devices devs :
  concat (map fetch_output devs)
  = warning <$> filter (λ dev, is_absent dev = true) devs.
Proof.
  induction devs as [|dev devs IH]; [done|].
  rewrite filter_cons. cbn [map concat]. rewrite IH.
  unfold fetch_output, is_absent.
  destruct (fetched dev) as [[d|]|e]; by destruct (decide _).
Qed.

Lemma fetched_ok_address dev r :
  fetched dev = Ok r → is_Some (primary_ip4 dev).
Proof. unfold fetched. destruct (primary_ip4 dev); [by eexists|done]. Qed.

(** X8. When no fetch raises, the sequential scheduler has sent exactly
    one request per device, in the order of the inventory, and has printed
    one warning for every device without samples, in that order, and no
    other line. *)
Theorem X8_sync_requests_and_warnings description devs rs w l0 :
  g_results w = Some l0 →
  fetch_all devs = Ok rs →
  let w' := (Sync.multi_proc description
               (Sync.get_availability LIBRENMS_URL net) devs w).1 in
  requests w' = requests w ++ omap url_of devs ∧
  length (omap url_of devs) = length devs ∧
  console w'
    = console w ++ (warning <$> filter (λ dev, is_absent dev = true) devs).
Proof.
  intros Hg E w'. subst w'.
  rewrite (sync_multi_proc_run _ _ _ _ _ l0 Hg); cbn.
  apply fetch_all_ok in E as (_ & -> & _ & Hall).
  rewrite requests_of_devices, output_of_devices.
  split; [done|]. split; [|done].
  clear -Hall. induction Hall as [|dev r devs rs Hdev _ IH]; [done|]. cbn.
  apply fetched_ok_address in Hdev as [a Ha]. unfold url_of at 1.
  rewrite Ha; cbn. by rewrite IH.
Qed.

(** X9. The asyncio scheduler starts the request of every device that
    has an address, in the order of the inventory, whether or not a fetch
    raises afterwards. *)
Theorem X9_requests_sent description devs w :
  requests (Async.multi_async net description
              (Async.get_availability LIBRENMS_URL) devs w).1
  = requests w ++ omap url_of devs.
Proof.
  destruct (fetch_all devs) as [rs|e] eqn:E.
  - by rewrite (async_multi_async_ok _ _ _ _ _ _ E), requests_of_devices.
  - destruct (async_multi_async_raise _ _ description _ _ w E)
      as (lines & e' & dev & -> & _).
    cbn. by rewrite requests_of_devices.
Qed.

Lemma concat_perm {A} (l l' : list (list A)) :
  l ≡ₚ l' → concat l ≡ₚ concat l'.
Proof.
  induction 1 as [|x l l' _ IH|x y l|l1 l2 l3 _ IH1 _ IH2]; cbn.
  - done.
  - by rewrite IH.
  - rewrite !app_assoc. f_equiv. apply Permutation_app_comm.
  - by rewrite IH1.
Qed.

Lemma completion_order_same_due {A} (l : list (Async.pending A)) t :
  Forall (λ p, Async.due p = t) l → Async.completion_order l = l.
Proof.
  induction 1 as [|p l Hp Hl IH]; [done|].
  change (Async.completion_order (p :: l))
    with (Async.insert_by_due p (Async.completion_order l)).
  rewrite IH.
  destruct Hl as [|q l Hq Hl]; [done|]. cbn.
  rewrite Hp, Hq. by rewrite Nat.leb_refl.
Qed.

(** X10. When no fetch raises, the two schedulers print the same
    warnings; the asyncio scheduler prints them in the order in which the
    answers arrive, which is the order of the sequential scheduler when all
    answers take equally long. *)
Theorem X10_warnings_of_both_schedulers description devs rs w l0 :
  g_results w = Some l0 →
  fetch_all devs = Ok rs →
  let ws := (Sync.multi_proc description
               (Sync.get_availability LIBRENMS_URL net) devs w).1 in
  let wa := (Async.multi_async net description
               (Async.get_availability LIBRENMS_URL) devs w).1 in
  console wa ≡ₚ console ws ∧
  ((∀ u v, latency net u = latency net v) → console wa = console ws).
Proof.
  intros Hg E ws wa. subst ws wa.
  rewrite (sync_multi_proc_run _ _ _ _ _ l0 Hg); cbn.
  rewrite (async_multi_async_ok _ _ _ _ _ _ E); cbn.
  pose proof E as E'.
  apply fetch_all_ok in E' as (_ & -> & _ & Hall).
  assert (Hout : map Async.output (map pending_of devs)
                 = map fetch_output devs).
  { by rewrite map_map. }
  split.
  - f_equiv. rewrite <- Hout. apply concat_perm.
    apply Permutation_map. apply completion_order_perm.
  - intros Hlat. f_equal. rewrite <- Hout. do 2 f_equal.
    destruct devs as [|dev0 devs0]; [done|].
    set (t := S (latency net "")).
    apply (completion_order_same_due _ t).
    apply Forall_map. clear -Hall Hlat.
    induction Hall as [|dev r devs rs Hdev _ IH]; constructor; [|done].
    apply fetched_ok_address in Hdev as [a Ha]. cbn. rewrite Ha.
    unfold t. f_equal. apply Hlat.
Qed.

Lemma served_results_length devs :
  (length (served_results devs) ≤ length devs)%nat.
Proof.
  induction devs as [|dev devs IH]; cbn; [lia|].
  destruct (fetched dev); cbn; lia.
Qed.

Lemma records_le_length (rs : list (option dict)) :
  (records rs ≤ length rs)%nat.
Proof. induction rs as [|[d|] rs IH]; cbn; lia. Qed.

Lemma sync_multi_proc_unbound description devs w :
  g_results w = None →
  ∃ w', Sync.multi_proc description
          (Sync.get_availability LIBRENMS_URL net) devs w = w' ∧
        task_total w'.1 = Some (length devs) ∧ ticks w'.1 = 0%nat ∧
        g_results w'.1 = None.
Proof.
  intros Hg. eexists. split; [done|].
  unfold Sync.multi_proc, mbind, M_bind, add_task.
  destruct devs as [|dev devs]; [done|].
  destruct (fetched dev) as [r|e] eqn:E.
  - by rewrite (sync_imap_loop_unbound _ _ _ _ _ r).
  - by rewrite (sync_imap_loop_first_raise _ _ _ _ _ e).
Qed.

(** X11. From every world, either scheduler sets the total of the
    progress task to the number of devices and never advances it beyond
    that total. *)
Theorem X11_ticks_never_exceed_total description devs w :
  let ws := (Sync.multi_proc description
               (Sync.get_availability LIBRENMS_URL net) devs w).1 in
  let wa := (Async.multi_async net description
               (Async.get_availability LIBRENMS_URL) devs w).1 in
  task_total ws = Some (length devs) ∧ (ticks ws ≤ length devs)%nat ∧
  task_total wa = Some (length devs) ∧ (ticks wa ≤ length devs)%nat.
Proof.
  intros ws wa. subst ws wa.
  assert (Hs : ∀ ws, ws = (Sync.multi_proc description
               (Sync.get_availability LIBRENMS_URL net) devs w).1 →
             task_total ws = Some (length devs) ∧
             (ticks ws ≤ length devs)%nat).
  { intros ws ->. destruct (g_results w) as [l0|] eqn:Hg.
    - rewrite (sync_multi_proc_run _ _ _ _ _ l0 Hg); cbn.
      split; [done|apply served_results_length].
    - destruct (sync_multi_proc_unbound description devs w Hg)
        as (w' & -> & Ht & Hk & _). rewrite Ht, Hk. split; [done|lia]. }
  destruct (Hs _ eq_refl) as [Hs1 Hs2]. split; [done|]. split; [done|].
  destruct (fetch_all devs) as [rs|e] eqn:E.
  - rewrite (async_multi_async_ok _ _ _ _ _ _ E); cbn. split; [done|].
    apply fetch_all_ok in E as (_ & _ & <- & _). apply records_le_length.
  - destruct (async_multi_async_raise _ _ description _ _ w E)
      as (lines & e' & dev & -> & _). cbn. split; [done|lia].
Qed.

(** X12. The asyncio script never reads or writes a global [results]:
    neither [multi_async] nor [main] changes it, whatever the run ends
    in. *)
Theorem X12_async_leaves_global_results {F : Type} `{PyFloat F}
    description devs inventory w :
  g_results (Async.multi_async net description
               (Async.get_availability LIBRENMS_URL) devs w).1
    = g_results w ∧
  g_results (Async.main (F:=F) LIBRENMS_URL net inventory w).1
    = g_results w.
Proof.
  assert (Hm : ∀ description devs,
            g_results (Async.multi_async net description
               (Async.get_availability LIBRENMS_URL) devs w).1
            = g_results w).
  { intros desc ds. destruct (fetch_all ds) as [rs|e] eqn:E.
    - by rewrite (async_multi_async_ok _ _ _ _ _ _ E).
    - by destruct (async_multi_async_raise _ _ desc _ _ w E)
        as (lines & e' & dev & -> & _). }
  split; [apply Hm|].
  destruct inventory as [ds|e]; [|done].
  unfold Async.main, Async.get_list_of_devices, lift.
  unfold mbind at 1, M_bind at 1.
  specialize (Hm "[cyan]Requesting Device Availability..." ds).
  unfold mbind, M_bind.
  destruct (Async.multi_async _ _ _ _ _) as [w' [rs|e]]; cbn in *; done.
Qed.

Lemma fetch_all_app devs1 devs2 rs1 rs2 :
  fetch_all devs1 = Ok rs1 → fetch_all devs2 = Ok rs2 →
  fetch_all (devs1 ++ devs2) = Ok (rs1 ++ rs2).
Proof.
  revert rs1. induction devs1 as [|dev devs1 IH]; intros rs1; cbn.
  - by intros [= <-].
  - destruct (fetched dev) as [r|e]; cbn; [|done].
    destruct (fetch_all devs1) as [rs|e] eqn:E; cbn; [|done].
    intros [= <-] E2. by rewrite (IH rs eq_refl E2).
Qed.

(** X13. [multi_proc] does not reset the global list: two calls in a
    row, neither of them raising, leave in it what a single call over the
    two device lists joined leaves, send the same requests and print the
    same lines; only the progress task is started anew by the second
    call. *)
Theorem X13_multi_proc_accumulates description devs1 devs2 rs1 rs2 w l0 :
  g_results w = Some l0 →
  fetch_all devs1 = Ok rs1 →
  fetch_all devs2 = Ok rs2 →
  let task := Sync.get_availability LIBRENMS_URL net in
  let two := (Sync.multi_proc description task devs1;;
              Sync.multi_proc description task devs2) w in
  let one := Sync.multi_proc description task (devs1 ++ devs2) w in
  two.2 = Ok () ∧ one.2 = Ok () ∧
  g_results two.1 = Some (l0 ++ rs1 ++ rs2) ∧
  g_results one.1 = Some (l0 ++ rs1 ++ rs2) ∧
  requests two.1 = requests one.1 ∧
  console two.1 = console one.1 ∧
  ticks two.1 = length devs2 ∧
  ticks one.1 = (length devs1 + length devs2)%nat.
Proof.
  intros Hg E1 E2 task two one. subst task two one.
  pose proof (fetch_all_app _ _ _ _ E1 E2) as E12.
  pose proof (sync_multi_proc_run LIBRENMS_URL net description devs1 w l0 Hg)
    as R1.
  rewrite E1 in R1. cbn [res_bind] in R1.
  rewrite (bind_ok _ _ _ _ _ R1).
  rewrite (sync_multi_proc_run _ _ _ _ _ (l0 ++ served_results devs1));
    [|done].
  rewrite (sync_multi_proc_run _ _ _ _ _ l0 Hg), E12, E2. cbn.
  apply fetch_all_ok in E1 as (Hs1 & Ha1 & Hl1 & _).
  apply fetch_all_ok in E2 as (Hs2 & Ha2 & Hl2 & _).
  apply fetch_all_ok in E12 as (Hs12 & Ha12 & Hl12 & _).
  rewrite Hs1, Hs2, Hs12, Ha1, Ha2, Ha12.
  rewrite !map_app, !concat_app, <- !app_assoc, length_app.
  rewrite Hl1, Hl2. done.
Qed.

(** X14. The [__main__] block rebinds [results] to the empty list before
    it collects: how its run ends, what it leaves in [results] and what the
    progress task shows do not depend on the world it starts from, and
    when no fetch raises the list holds exactly the results of this
    run. *)
Theorem X14_main_starts_from_empty_results {F : Type} `{PyFloat F} devs w w' :
  let run := Sync.main (F:=F) LIBRENMS_URL net (Ok devs) w in
  let run' := Sync.main (F:=F) LIBRENMS_URL net (Ok devs) w' in
  run.2 = run'.2 ∧
  g_results run.1 = g_results run'.1 ∧
  ticks run.1 = ticks run'.1 ∧
  task_total run.1 = task_total run'.1 ∧
  (∀ rs, fetch_all devs = Ok rs → g_results run.1 = Some rs).
Proof.
  intros run run'. subst run run'. rewrite !sync_main_run; cbn.
  repeat split. intros rs E. by apply fetch_all_ok in E as (-> & _).
Qed.

(** X15. When all the devices whose fetch raises raise the same
    exception, in particular when only one device fails, both scripts end
    in exactly that exception. *)
Theorem X15_same_exception_in_both_scripts {F : Type} `{PyFloat F}
    devs dev e w :
  dev ∈ devs →
  fetched dev = Raise e →
  (∀ dev' e', dev' ∈ devs → fetched dev' = Raise e' → e' = e) →
  (Sync.main (F:=F) LIBRENMS_URL net (Ok devs) w).2 = Raise e ∧
  (Async.main (F:=F) LIBRENMS_URL net (Ok devs) w).2 = Raise e.
Proof.
  intros Hin Hdev Hsame.
  destruct (fetch_all_some_failure _ _ _ _ _ Hin Hdev) as [e1 E].
  split.
  - rewrite sync_main_run, E; cbn.
    apply fetch_all_raise in E as [(dev1 & Hin1 & Hdev1) _].
    by rewrite (Hsame dev1 e1).
  - destruct (async_main_raise (F:=F) _ _ _ _ w E)
      as (e2 & dev2 & w2 & -> & _ & Hin2 & Hdev2).
    cbn. by rewrite (Hsame dev2 e2).
Qed.

End SchedulerMore.

Lemma X8_sync_requests_and_warnings_witness :
  g_results Lab.ready = Some [] ∧
  fetch_all Lab.url Lab.net [Lab.core1; Lab.spare]
    = Ok [Some Lab.full; None] ∧
  console (Sync.multi_proc "Requesting"
             (Sync.get_availability Lab.url Lab.net)
             [Lab.core1; Lab.spare] Lab.ready).1
    = ["[red]spare issue in LibreNMS"].
Proof.
  assert (E : fetch_all Lab.url Lab.net [Lab.core1; Lab.spare]
              = Ok [Some Lab.full; None]) by reflexivity.
  split; [reflexivity|]. split; [exact E|].
  destruct (X8_sync_requests_and_warnings Lab.url Lab.net "Requesting"
              [Lab.core1; Lab.spare] [Some Lab.full; None] Lab.ready []
              eq_refl E) as (_ & _ & Hc).
  rewrite Hc. reflexivity.
Defined.

Lemma X10_warnings_of_both_schedulers_witness :
  g_results Lab.ready = Some [] ∧
  fetch_all Lab.url Lab.net [Lab.core1; Lab.spare]
    = Ok [Some Lab.full; None] ∧
  console (Async.multi_async Lab.net "Requesting"
             (Async.get_availability Lab.url)
             [Lab.core1; Lab.spare] Lab.ready).1
  = console (Sync.multi_proc "Requesting"
               (Sync.get_availability Lab.url Lab.net)
               [Lab.core1; Lab.spare] Lab.ready).1.
Proof.
  assert (E : fetch_all Lab.url Lab.net [Lab.core1; Lab.spare]
              = Ok [Some Lab.full; None]) by reflexivity.
  split; [reflexivity|]. split; [exact E|].
  apply (proj2 (X10_warnings_of_both_schedulers Lab.url Lab.net "Requesting"
                  [Lab.core1; Lab.spare] [Some Lab.full; None] Lab.ready []
                  eq_refl E)).
  intros u v. reflexivity.
Defined.

Lemma X13_multi_proc_accumulates_witness :
  g_results Lab.ready = Some [] ∧
  fetch_all Lab.url Lab.net [Lab.core1] = Ok [Some Lab.full] ∧
  fetch_all Lab.url Lab.net [Lab.spare] = Ok [None] ∧
  g_results ((Sync.multi_proc "Requesting"
                (Sync.get_availability Lab.url Lab.net) [Lab.core1];;
              Sync.multi_proc "Requesting"
                (Sync.get_availability Lab.url Lab.net) [Lab.spare])
               Lab.ready).1
    = Some [Some Lab.full; None].
Proof.
  assert (E1 : fetch_all Lab.url Lab.net [Lab.core1] = Ok [Some Lab.full])
    by reflexivity.
  assert (E2 : fetch_all Lab.url Lab.net [Lab.spare] = Ok [None])
    by reflexivity.
  split; [reflexivity|]. split; [exact E1|]. split; [exact E2|].
  exact (proj1 (proj2 (proj2
           (X13_multi_proc_accumulates Lab.url Lab.net "Requesting"
              [Lab.core1] [Lab.spare] [Some Lab.full] [None] Lab.ready []
              eq_refl E1 E2)))).
Defined.

Lemma X15_same_exception_in_both_scripts_witness :
  Lab.gone ∈ [Lab.core1; Lab.gone] ∧
  fetched Lab.url Lab.net Lab.gone = Raise ConnectionError ∧
  (Async.main (F:=B64.float) Lab.url Lab.net (Ok [Lab.core1; Lab.gone])
              initial_world).2 = Raise ConnectionError.
Proof.
  assert (Hin : Lab.gone ∈ [Lab.core1; Lab.gone]) by (right; left).
  assert (Hsame : ∀ dev' e', dev' ∈ [Lab.core1; Lab.gone] →
            fetched Lab.url Lab.net dev' = Raise e' → e' = ConnectionError).
  { intros dev' e' Hdev'.
    apply elem_of_cons in Hdev' as [->|Hdev']; [discriminate|].
    apply elem_of_cons in Hdev' as [->|Hdev'];
      [intros [= <-]; reflexivity|].
    by apply elem_of_nil in Hdev'. }
  split; [exact Hin|]. split; [reflexivity|].
  exact (proj2 (X15_same_exception_in_both_scripts (F:=B64.float)
                  Lab.url Lab.net [Lab.core1; Lab.gone] Lab.gone
                  ConnectionError initial_world Hin eq_refl Hsame)).
Defined.

(** ** Aggregation, continued *)

Section AggregationMore.
Context {F : Type} `{PyFloat F}.

Lemma column_same_windows (k : Z) (results results' : list (option dict)) :
  k ∈ standard_durations →
  Forall2 same_windows results results' →
  column (F:=F) k results = column k results'.
Proof.
  intros Hk. induction 1 as [|[d|] [d'|] rs rs' Hsame _ IH]; cbn;
    [done| |done|done|done].
  rewrite (Hsame k Hk). by rewrite IH.
Qed.

(** X16. The aggregator reads nothing of a record but the values under
    the four window keys: two result lists whose entries are None at the
    same places and agree on those four values elsewhere give the same
    report or the same exception, whatever the device names and whatever
    else the records hold. *)
Theorem X16_aggregator_reads_only_the_windows
    (results results' : list (option dict)) :
  Forall2 same_windows results results' →
  Sync.average_availability (F:=F) results
  = Sync.average_availability results' ∧
  Async.average_availability (F:=F) results
  = Async.average_availability results'.
Proof.
  intros Hsame.
  assert (Sync.average_availability (F:=F) results
          = Sync.average_availability results'); [|done].
  unfold Sync.average_availability.
  rewrite (column_same_windows DAY _ _ ltac:(by left) Hsame).
  rewrite (column_same_windows WEEK _ _ ltac:(right; by left) Hsame).
  rewrite (column_same_windows MONTH _ _ ltac:(do 2 right; by left) Hsame).
  by rewrite (column_same_windows YEAR _ _ ltac:(do 3 right; by left) Hsame).
Qed.

Lemma column_ok (k : Z) (results : list (option dict)) xs :
  column (F:=F) k results = Ok xs →
  length xs = records results ∧
  Forall (λ r : option dict,
            ∀ d, r = Some d →
              ∃ s x, d !! (inr k : key) = Some s ∧ float_of_str s = Some x)
         results.
Proof.
  revert xs. induction results as [|[d|] results IH]; intros xs; cbn.
  - intros [= <-]. by split.
  - destruct (d !! _) as [s|] eqn:Es; [|done].
    destruct (float_of_str s) as [x|] eqn:Ex; [|done].
    destruct (column k results) as [xs'|] eqn:Ec; cbn; [|done].
    intros [= <-]. destruct (IH xs' eq_refl) as [IHlen IHall].
    split; [cbn; by rewrite IHlen|].
    constructor; [|done]. intros d' [= <-]. by exists s, x.
  - intros E. destruct (IH xs E) as [IHlen IHall].
    split; [done|]. constructor; [done|done].
Qed.

Lemma column_raise_cause (k : Z) (results : list (option dict)) e :
  column (F:=F) k results = Raise e →
  (e = KeyError (inr k) ∧
     ∃ d, Some d ∈ results ∧ d !! (inr k : key) = None) ∨
  (∃ s d, e = ValueError s ∧ Some d ∈ results ∧
          d !! (inr k : key) = Some s ∧ float_of_str (F:=F) s = None).
Proof.
  induction results as [|[d|] results IH]; cbn; [done| |].
  - destruct (d !! _) as [s|] eqn:Es.
    + destruct (float_of_str s) as [x|] eqn:Ex.
      * destruct (column k results) as [xs'|e'] eqn:Ec; cbn; [done|].
        intros [= <-].
        destruct (IH eq_refl) as [[-> (d' & Hd' & Hk')]
                                 |(s' & d' & -> & Hd' & Hk' & Hs')].
        -- left. split; [done|]. exists d'. split; [by right|done].
        -- right. exists s', d'. split; [done|]. split; [by right|done].
      * intros [= <-]. right. exists s, d. split; [done|].
        split; [by left|done].
    + intros [= <-]. left. split; [done|]. exists d. split; [by left|done].
  - intros E. destruct (IH E) as [[-> (d' & Hd' & Hk')]
                                |(s' & d' & -> & Hd' & Hk' & Hs')].
    + left. split; [done|]. exists d'. split; [by right|done].
    + right. exists s', d'. split; [done|]. split; [by right|done].
Qed.

Lemma average_availability_complete (rs : list (option dict)) :
  complete (F:=F) rs → records rs ≠ 0%nat →
  Sync.average_availability (F:=F) rs
  = Ok (Report (mean_of (window DAY rs)) (mean_of (window WEEK rs))
               (mean_of (window MONTH rs)) (mean_of (window YEAR rs))).
Proof.
  intros Hrs Hrn. unfold Sync.average_availability.
  destruct (column_complete DAY rs Hrs) as [-> Ld]; [by left|].
  destruct (column_complete WEEK rs Hrs) as [-> Lw]; [right; by left|].
  destruct (column_complete MONTH rs Hrs) as [-> Lm];
    [do 2 right; by left|].
  destruct (column_complete YEAR rs Hrs) as [-> Ly];
    [do 3 right; by left|].
  cbn. rewrite !mean_nonempty by congruence. done.
Qed.

(** X17. The aggregator returns a report exactly when the result list
    holds at least one record and every record has all four windows with
    a percentage that [float] can read. *)
Theorem X17_aggregator_succeeds_iff (results : list (option dict)) :
  is_ok (Sync.average_availability (F:=F) results) = true ↔
  records results ≠ 0%nat ∧ complete (F:=F) results.
Proof.
  split.
  - unfold Sync.average_availability.
    destruct (column DAY results) as [xd|] eqn:Ed; cbn; [|done].
    destruct (column WEEK results) as [xw|] eqn:Ew; cbn; [|done].
    destruct (column MONTH results) as [xm|] eqn:Em; cbn; [|done].
    destruct (column YEAR results) as [xy|] eqn:Ey; cbn; [|done].
    apply column_ok in Ed as [Ld Hd]. apply column_ok in Ew as [Lw Hw].
    apply column_ok in Em as [Lm Hm]. apply column_ok in Ey as [Ly Hy].
    unfold mean. rewrite Ld.
    destruct (Nat.eqb_spec (records results) 0); cbn; [done|].
    intros _. split; [done|].
    unfold complete. rewrite Forall_forall in *.
    intros r Hr d -> k Hk.
    repeat (apply elem_of_cons in Hk as [->|Hk]; [by eauto|]).
    by apply elem_of_nil in Hk.
  - intros [Hn Hc].
    by rewrite average_availability_complete.
Qed.

(** X18. The aggregator raises nothing but ZeroDivisionError, KeyError
    and ValueError, each with its cause in the input: ZeroDivisionError
    only when the list holds no record, KeyError only for a window that
    some record lacks, ValueError only for a string that some record holds
    under a window and that [float] cannot read. *)
Theorem X18_aggregator_exceptions (results : list (option dict)) e :
  Sync.average_availability (F:=F) results = Raise e →
  match e with
  | ZeroDivisionError => records results = 0%nat
  | KeyError k =>
      ∃ k' d, k = inr k' ∧ k' ∈ standard_durations ∧
              Some d ∈ results ∧ d !! (inr k' : key) = None
  | ValueError s =>
      ∃ k d, k ∈ standard_durations ∧ Some d ∈ results ∧
             d !! (inr k : key) = Some s ∧ float_of_str (F:=F) s = None
  | _ => False
  end.
Proof.
  assert (Hcol : ∀ k e', k ∈ standard_durations →
            column (F:=F) k results = Raise e' →
            match e' with
            | ZeroDivisionError => records results = 0%nat
            | KeyError k =>
                ∃ k' d, k = inr k' ∧ k' ∈ standard_durations ∧
                        Some d ∈ results ∧ d !! (inr k' : key) = None
            | ValueError s =>
                ∃ k d, k ∈ standard_durations ∧ Some d ∈ results ∧
                       d !! (inr k : key) = Some s ∧
                       float_of_str (F:=F) s = None
            | _ => False
            end).
  { intros k e' Hk [[-> (d & Hd & Hl)]|(s & d & -> & Hd & Hs & Hf)]
      %column_raise_cause.
    - by exists k, d.
    - by exists k, d. }
  unfold Sync.average_availability.
  destruct (column DAY results) as [xd|ed] eqn:Ed; cbn;
    [|intros [= <-]; apply (Hcol DAY); [by left|done]].
  destruct (column WEEK results) as [xw|ew] eqn:Ew; cbn;
    [|intros [= <-]; apply (Hcol WEEK); [right; by left|done]].
  destruct (column MONTH results) as [xm|em] eqn:Em; cbn;
    [|intros [= <-]; apply (Hcol MONTH); [do 2 right; by left|done]].
  destruct (column YEAR results) as [xy|ey] eqn:Ey; cbn;
    [|intros [= <-]; apply (Hcol YEAR); [do 3 right; by left|done]].
  apply column_ok in Ed as [Ld _]. apply column_ok in Ew as [Lw _].
  apply column_ok in Em as [Lm _]. apply column_ok in Ey as [Ly _].
  unfold mean. rewrite Ld, Lw, Lm, Ly.
  destruct (Nat.eqb_spec (records results) 0); cbn; [|done].
  by intros [= <-].
Qed.

End AggregationMore.

Lemma X16_aggregator_reads_only_the_windows_witness :
  Forall2 same_windows
    [Some Lab.full; None]
    [Some (build_availability Lab.core2
             (Lab.windows "100.000000" "100.000000" "100.000000"
                          "99.999000")); None] ∧
  Sync.average_availability (F:=B64.float) [Some Lab.full; None]
  = Sync.average_availability
      [Some (build_availability Lab.core2
               (Lab.windows "100.000000" "100.000000" "100.000000"
                            "99.999000")); None].
Proof.
  assert (Hs : Forall2 same_windows
                 [Some Lab.full; None]
                 [Some (build_availability Lab.core2
                          (Lab.windows "100.000000" "100.000000"
                                       "100.000000" "99.999000")); None]).
  { constructor; [|constructor; [exact I|constructor]].
    intros k Hk. unfold Lab.full.
    rewrite !build_availability_duration. reflexivity. }
  split; [exact Hs|].
  exact (proj1 (X16_aggregator_reads_only_the_windows (F:=B64.float) _ _ Hs)).
Defined.

Lemma X18_aggregator_exceptions_witness :
  Sync.average_availability (F:=B64.float) [Some Lab.full; Some Lab.no_day]
    = Raise (KeyError (inr DAY)) ∧
  ∃ k' d, (inr DAY : key) = inr k' ∧ k' ∈ standard_durations ∧
          Some d ∈ [Some Lab.full; Some Lab.no_day] ∧
          d !! (inr k' : key) = None.
Proof.
  assert (E : Sync.average_availability (F:=B64.float)
                [Some Lab.full; Some Lab.no_day]
              = Raise (KeyError (inr DAY))) by (vm_compute; reflexivity).
  split; [exact E|].
  exact (X18_aggregator_exceptions (F:=B64.float) _ _ E).
Defined.

(** ** Devices without samples *)

Section AbsentMore.
Context {F : Type} `{PyFloat F}.
Variable LIBRENMS_URL : string.
Variable net : network.

Local Abbreviation fetched := (fetched LIBRENMS_URL net).
Local Abbreviation fetch_each := (fetch_all LIBRENMS_URL net).
Local Abbreviation is_absent := (is_absent LIBRENMS_URL net).

Lemma fetch_all_without_absent devs :
  fetch_each (filter (λ dev, is_absent dev = false) devs)
  = rs ←r fetch_each devs; Ok (filter is_Some rs).
Proof.
  induction devs as [|dev devs IH]; [done|].
  rewrite filter_cons. cbn [fetch_all].
  assert (Ha : is_absent dev = match fetched dev with
                               | Ok None => true | _ => false end) by done.
  destruct (fetched dev) as [[d|]|e] eqn:E; cbn [res_bind];
    destruct (decide (is_absent dev = false)) as [Hd|Hd];
    try (rewrite Ha in Hd; done);
    cbn [fetch_all res_bind]; rewrite ?E; cbn [res_bind].
  - rewrite IH. destruct (fetch_each devs) as [rs|e]; cbn [res_bind]; [|done].
    by rewrite filter_cons_True.
  - rewrite IH. destruct (fetch_each devs) as [rs|e]; cbn [res_bind]; [|done].
    rewrite filter_cons_False; [done|]. by intros [? ?].
  - done.
Qed.

(** X19. Devices without samples do not count: the sequential script
    ends in the same report or the same exception when they are left out of
    the inventory, and the asyncio script produces the same report or, like
    before, none. *)
Theorem X19_absent_devices_do_not_count devs w :
  let present := filter (λ dev, is_absent dev = false) devs in
  (Sync.main (F:=F) LIBRENMS_URL net (Ok devs) w).2
  = (Sync.main (F:=F) LIBRENMS_URL net (Ok present) w).2 ∧
  value_of (Async.main (F:=F) LIBRENMS_URL net (Ok devs) w).2
  = value_of (Async.main (F:=F) LIBRENMS_URL net (Ok present) w).2.
Proof.
  intros present. subst present.
  assert (Hs : (Sync.main (F:=F) LIBRENMS_URL net (Ok devs) w).2
    = (Sync.main (F:=F) LIBRENMS_URL net
         (Ok (filter (λ dev, is_absent dev = false) devs)) w).2).
  { rewrite !sync_main_run; cbn. rewrite fetch_all_without_absent.
    destruct (fetch_each devs) as [rs|e]; cbn; [|done].
    by rewrite average_availability_filter. }
  split; [done|].
  set (present := filter (λ dev, is_absent dev = false) devs) in *.
  pose proof (fetch_all_without_absent devs) as Hf. fold present in Hf.
  destruct (fetch_each devs) as [rs|e] eqn:E; cbn in Hf.
  - rewrite (async_main_ok _ _ _ _ _ E), (async_main_ok _ _ _ _ _ Hf).
    change (Async.average_availability (F:=F))
      with (Sync.average_availability (F:=F)).
    by rewrite average_availability_filter.
  - destruct (async_main_raise (F:=F) _ _ _ _ w E) as (e1 & ? & ? & -> & _).
    destruct (async_main_raise (F:=F) _ _ _ _ w Hf) as (e2 & ? & ? & -> & _).
    done.
Qed.

End AbsentMore.

(** ** The printed report *)

Lemma round_half_even_unique a b n :
  0 < b → Z.abs (a - n * b) * 2 < b → B64.round_half_even a b = n.
Proof.
  intros Hb Hn. unfold B64.round_half_even.
  pose proof (Z.div_mod a b ltac:(lia)) as Hdm.
  pose proof (Z.mod_pos_bound a b Hb) as Hr.
  set (q := a / b) in *. set (r := a mod b) in *.
  assert (Hq : q = n ∨ q = n - 1) by nia.
  destruct (Z.ltb_spec (2 * r) b); [nia|].
  destruct (Z.ltb_spec b (2 * r)); nia.
Qed.

Lemma value_den_pos x num den :
  B64.value x = Some (num, den) → 0 < den.
Proof.
  destruct x as [s|s| |s m e]; cbn; try done.
  - by intros [= <- <-].
  - destruct (Z.leb_spec 0 e); intros [= <- <-]; [lia|].
    apply Z.pow_pos_nonneg; lia.
Qed.

Lemma nearest_sign s n d : Printed.sign_of (B64.nearest s n d) = s.
Proof.
  unfold B64.nearest. destruct (n =? 0); [done|].
  destruct (B64.scaled n d (B64.exponent_of n d) =? 2 ^ 53).
  - destruct (2 ^ 52 =? 0); [done|]. by destruct (971 <? _).
  - destruct (_ =? 0); [done|]. by destruct (971 <? _).
Qed.

(** For a double between 0 and 100, rounding to three decimals first
    does not change what is printed. *)
Lemma fixed3_round3 (x : B64.float) num den :
  B64.value x = Some (num, den) →
  Printed.sign_of x = false →
  0 ≤ num ≤ 100 * den →
  ∃ n, Printed.fixed3 (Printed.round3 x) = Printed.render3 false n ∧
       Printed.fixed3 x = Printed.render3 false n ∧
       0 ≤ n ≤ 100000 ∧
       Z.abs (num * 1000 - n * den) * 2 ≤ den.
Proof.
  intros Hv Hs Hnum.
  pose proof (value_den_pos _ _ _ Hv) as Hden.
  assert (Ht : Printed.thousandths x
               = Some (B64.round_half_even (num * 1000) den)).
  { unfold Printed.thousandths. rewrite Hv. by rewrite Z.abs_eq by lia. }
  destruct (round_half_even_error (num * 1000) den Hden ltac:(lia))
    as [Hq Herr].
  set (n := B64.round_half_even (num * 1000) den) in *.
  assert (Hn : 0 ≤ n ≤ 100000).
  { pose proof (Z.div_pos (num * 1000) den ltac:(lia) Hden).
    split; [lia|nia]. }
  assert (Hy : Printed.thousandths (B64.nearest false n 1000) = Some n).
  { destruct (Z.eq_dec n 0) as [->|Hn0]; [done|].
    assert (0 < 2 ^ 1000) by (apply Z.pow_pos_nonneg; lia).
    destruct (nearest_bounded n 1000 ltac:(lia) ltac:(lia) ltac:(lia)
                ltac:(nia))
      as (_ & num' & den' & Hv' & Hden' & Herr').
    unfold Printed.thousandths. rewrite Hv'. f_equal.
    change (2 ^ 47) with 140737488355328 in Herr'.
    assert (0 ≤ num') by nia.
    rewrite Z.abs_eq by lia.
    apply round_half_even_unique; [done|]. nia. }
  exists n. split; [|split; [|split; [done|]]].
  - unfold Printed.round3. rewrite Ht, Hs.
    unfold Printed.fixed3. by rewrite Hy, nearest_sign.
  - unfold Printed.fixed3. by rewrite Ht, Hs.
  - replace (num * 1000 - n * den) with (- (n * den - num * 1000)) by lia.
    by rewrite Z.abs_opp.
Qed.

(** X20. For a report whose four averages lie between 0 and 100, the call
    of [round] in front of the three-decimal format changes nothing: the
    eight lines printed are the banner, the title, the banner, each
    average formatted to three decimals and followed by its text, and the
    banner. *)
Theorem X20_round_before_format_is_redundant (avail : report B64.float) :
  Printed.percentage (day avail) → Printed.percentage (week avail) →
  Printed.percentage (month avail) → Printed.percentage (year avail) →
  Printed.report_lines avail
  = [ Printed.banner;
      "Network Device Availability.";
      Printed.banner;
      Printed.fixed3 (day avail) +:+ "% availability yesterday";
      Printed.fixed3 (week avail) +:+ "% availability for the past week.";
      Printed.fixed3 (month avail) +:+ "% availability for the past month.";
      Printed.fixed3 (year avail) +:+ "% availability for the past year.";
      Printed.banner ].
Proof.
  intros (nd & dd & Hd & Hsd & Hrd) (nw & dw & Hw & Hsw & Hrw)
         (nm & dm & Hm & Hsm & Hrm) (ny & dy & Hy & Hsy & Hry).
  unfold Printed.report_lines.
  destruct (fixed3_round3 _ _ _ Hd Hsd Hrd) as (? & -> & <- & _).
  destruct (fixed3_round3 _ _ _ Hw Hsw Hrw) as (? & -> & <- & _).
  destruct (fixed3_round3 _ _ _ Hm Hsm Hrm) as (? & -> & <- & _).
  destruct (fixed3_round3 _ _ _ Hy Hsy Hry) as (? & -> & <- & _).
  done.
Qed.

Lemma all_from_spec count n m :
  all_from count n = true → n ≤ m < n + Z.of_nat count → reads_back m = true.
Proof.
  revert n. induction count as [|count IH]; intros n; [lia|].
  cbn [all_from]. intros [Hn Hrest]%andb_true_iff Hm.
  destruct (Z.eq_dec m n) as [->|Hne]; [done|].
  apply (IH (n + 1)); [done|lia].
Qed.

Lemma all_thousandths_read_back : all_from (Z.to_nat 100001) 0 = true.
Proof. by vm_compute. Qed.

Lemma render3_reads_back n :
  0 ≤ n ≤ 100000 →
  B64.parse_decimal (Printed.render3 false n) = Some (false, n, 3%nat).
Proof.
  intros Hn.
  assert (Hr : reads_back n = true).
  { apply (all_from_spec _ _ n all_thousandths_read_back).
    rewrite Z2Nat.id by lia. lia. }
  unfold reads_back in Hr.
  destruct (B64.parse_decimal _) as [[[[|] m] [|[|[|[|k]]]]]|]; try done.
  by apply Z.eqb_eq in Hr as ->.
Qed.

(** X21. What the script prints for an average between 0 and 100 is a
    plain unsigned decimal with exactly three digits after the point, and
    the number it spells differs from the average by at most 0.0005. *)
Theorem X21_printed_percentage_reads_back (x : B64.float) num den :
  B64.value x = Some (num, den) →
  Printed.sign_of x = false →
  0 ≤ num ≤ 100 * den →
  ∃ n, B64.parse_decimal (Printed.fixed3 (Printed.round3 x))
       = Some (false, n, 3%nat) ∧
       Z.abs (num * 1000 - n * den) * 2 ≤ den.
Proof.
  intros Hv Hs Hnum.
  destruct (fixed3_round3 _ _ _ Hv Hs Hnum) as (n & -> & _ & Hn & Herr).
  exists n. split; [by apply render3_reads_back|done].
Qed.

Lemma print_all_run lines w :
  Printed.print_all lines w =
    (World (requests w) (console w ++ lines) (task_total w) (ticks w)
           (g_results w), Ok ()).
Proof.
  revert w. induction lines as [|line lines IH]; intros w; cbn.
  - by rewrite app_nil_r, world_eta.
  - unfold mbind, M_bind, console_print; cbn. rewrite IH; cbn.
    by rewrite <- app_assoc.
Qed.

(** X22. The sequential script from start to end, for a run in which no
    fetch raises and the aggregator returns a report: one request per
    device has been sent, in the order of the inventory; the console shows
    the warnings of the devices without samples, in that order, and then
    the eight lines of the report; the progress task is complete; and the
    global [results] holds the result of every device. *)
Theorem X22_successful_sequential_run LIBRENMS_URL net devs rs avail w :
  fetch_all LIBRENMS_URL net devs = Ok rs →
  Sync.average_availability (F:=B64.float) rs = Ok avail →
  Printed.sync_main LIBRENMS_URL net (Ok devs) w =
    (World (requests w ++ omap (url_of LIBRENMS_URL) devs)
           (console w
              ++ (warning <$>
                    filter (λ dev, is_absent LIBRENMS_URL net dev = true) devs)
              ++ Printed.report_lines avail)
           (Some (length devs)) (length devs) (Some rs),
     Ok ()).
Proof.
  intros E Havg. unfold Printed.sync_main.
  pose proof (sync_main_run (F:=B64.float) LIBRENMS_URL net devs w) as Hrun.
  rewrite E in Hrun. cbn [res_bind] in Hrun. rewrite Havg in Hrun.
  rewrite (bind_ok _ _ _ _ _ Hrun), print_all_run; cbn.
  apply fetch_all_ok in E as (-> & -> & -> & _).
  by rewrite requests_of_devices, output_of_devices, <- app_assoc.
Qed.

Lemma X20_round_before_format_is_redundant_witness :
  Printed.percentage (S754_finite false 7001690045677568 (-46)) ∧
  Printed.report_lines
    (Report (S754_finite false 7001690045677568 (-46))
            (S754_finite false 7001690045677568 (-46))
            (S754_finite false 7001690045677568 (-46))
            (S754_finite false 7001690045677568 (-46)))
    !! 3%nat = Some "99.500% availability yesterday".
Proof.
  assert (Hp : Printed.percentage (S754_finite false 7001690045677568 (-46))).
  { exists 7001690045677568, (2 ^ 46).
    split; [reflexivity|]. split; [reflexivity|].
    split; apply Z.leb_le; reflexivity. }
  split; [exact Hp|].
  rewrite (X20_round_before_format_is_redundant
             (Report (S754_finite false 7001690045677568 (-46))
                     (S754_finite false 7001690045677568 (-46))
                     (S754_finite false 7001690045677568 (-46))
                     (S754_finite false 7001690045677568 (-46)))
             Hp Hp Hp Hp).
  vm_compute. reflexivity.
Defined.

Lemma X21_printed_percentage_reads_back_witness :
  B64.value (S754_finite false 7036804049022222 (-46))
    = Some (7036804049022222, 2 ^ 46) ∧
  Printed.sign_of (S754_finite false 7036804049022222 (-46)) = false ∧
  0 ≤ 7036804049022222 ≤ 100 * 2 ^ 46 ∧
  ∃ n, B64.parse_decimal
         (Printed.fixed3
            (Printed.round3 (S754_finite false 7036804049022222 (-46))))
       = Some (false, n, 3%nat).
Proof.
  assert (Hr : 0 ≤ 7036804049022222 ≤ 100 * 2 ^ 46)
    by (split; apply Z.leb_le; reflexivity).
  split; [reflexivity|]. split; [reflexivity|]. split; [exact Hr|].
  destruct (X21_printed_percentage_reads_back
              (S754_finite false 7036804049022222 (-46))
              7036804049022222 (2 ^ 46) eq_refl eq_refl Hr) as (n & Hn & _).
  exists n. exact Hn.
Defined.

Lemma X22_successful_sequential_run_witness :
  fetch_all Lab.url Lab.net [Lab.core1; Lab.spare]
    = Ok [Some Lab.full; None] ∧
  Sync.average_availability (F:=B64.float) [Some Lab.full; None]
    = Ok (Report (S754_finite false 7036874417766400 (-46))
                 (S754_finite false 7036874417766400 (-46))
                 (S754_finite false 7036874417766400 (-46))
                 (S754_finite false 7036804049022222 (-46))) ∧
  console (Printed.sync_main Lab.url Lab.net (Ok [Lab.core1; Lab.spare])
                             initial_world).1
  = [ "[red]spare issue in LibreNMS";
      Printed.banner;
      "Network Device Availability.";
      Printed.banner;
      "100.000% availability yesterday";
      "100.000% availability for the past week.";
      "100.000% availability for the past month.";
      "99.999% availability for the past year.";
      Printed.banner ].
Proof.
  assert (E : fetch_all Lab.url Lab.net [Lab.core1; Lab.spare]
              = Ok [Some Lab.full; None]) by reflexivity.
  assert (Ha : Sync.average_availability (F:=B64.float) [Some Lab.full; None]
    = Ok (Report (S754_finite false 7036874417766400 (-46))
                 (S754_finite false 7036874417766400 (-46))
                 (S754_finite false 7036874417766400 (-46))
                 (S754_finite false 7036804049022222 (-46))))
    by (vm_compute; reflexivity).
  split; [exact E|]. split; [exact Ha|].
  rewrite (X22_successful_sequential_run Lab.url Lab.net _ _ _
             initial_world E Ha).
  vm_compute. reflexivity.
Defined.
